(** * Gray-release routing of wechat-snippets: a shallow embedding

    The development follows [src/enableGrayVersion/index.js]: the rule
    evaluator [checkIsGrayVersionTargetUser], the persisted decision
    ([isGrayVersionSync], [setGrayVersionStorageSync]), the rule source
    [getGrayVersionRule], the path normaliser [fixRelativeUrl], the navigation
    interceptor [routeApiProxy] and the redirect trigger [redirectToGrayPage].

    JavaScript strings are modelled by [string], arrays by [list], an object
    whose properties may be missing by a record of [option] fields, and the
    calls on the host object [wx] by a state monad over [World] that also
    records the calls it makes, in order. *)

From Stdlib Require Import String Ascii List Bool Arith ZArith Lia.
Import ListNotations.
Local Open Scope string_scope.

(** ** The string and array primitives the source uses *)

Module Js.

(** [s.startsWith(p)] *)
Definition startsWith (s p : string) : bool := String.prefix p s.

(** [s.slice(n)] and [s.substring(n)] for an index [n >= 0]. *)
Fixpoint slice (n : nat) (s : string) : string :=
  match n, s with
  | O, _ => s
  | S _, EmptyString => EmptyString
  | S k, String _ r => slice k r
  end.

(** [s.split(sep)] for a one-character separator: never empty. *)
Fixpoint split (sep : ascii) (s : string) : list string :=
  match s with
  | EmptyString => [EmptyString]
  | String c r =>
      if Ascii.eqb c sep then EmptyString :: split sep r
      else match split sep r with
           | x :: xs => String c x :: xs
           | [] => [String c EmptyString]
           end
  end.

(** [a.join(sep)] *)
Definition join (sep : string) (a : list string) : string := String.concat sep a.

(** [s.replace(c, '')] with a one-character string pattern: only the first
    occurrence is replaced. *)
Fixpoint replaceFirst (c : ascii) (s : string) : string :=
  match s with
  | EmptyString => EmptyString
  | String a r => if Ascii.eqb a c then r else String a (replaceFirst c r)
  end.

(** [a.pop()] as a statement: the last element is dropped, and popping the
    empty array leaves it empty. *)
Definition pop {A} (a : list A) : list A := removelast a.

(** [a.push(x)] *)
Definition push {A} (a : list A) (x : A) : list A := (a ++ [x])%list.

(** [a[a.length - 1]]: [undefined] on the empty array. *)
Definition lastOf {A} (a : list A) : option A :=
  match rev a with
  | [] => None
  | x :: _ => Some x
  end.

(** [a.some(f)] *)
Definition some {A} (f : A -> bool) (a : list A) : bool := existsb f a.

(** [a.includes(x)] on an array of strings *)
Definition includes (a : list string) (x : string) : bool :=
  existsb (String.eqb x) a.

(** [v || d] on a property that is a boolean when present. *)
Definition orFalse (v : option bool) : bool :=
  match v with Some b => b | None => false end.

(** [v || ''] on a property that is a string when present. *)
Definition orEmpty (v : option string) : string :=
  match v with Some s => s | None => EmptyString end.

(** A destructuring default [{ x = d }]: used when the property is missing. *)
Definition withDefault {A} (d : A) (v : option A) : A :=
  match v with Some a => a | None => d end.

End Js.

(** ** Data model (the typedefs of the source) *)

Module UserInfo.
(** [@typedef UserInfo]; the identity fields are not read by this module. *)
Record t := mk {
  areaCode : option string;
  mobilePhone : option string
}.
End UserInfo.

Module GrayRule.
(** [@typedef GrayRule], with the two properties the source adds to the
    stored object: [isTest] and [isGrayVersion]. *)
Record t := mk {
  isOpen : option bool;
  areaCode : option (list string);
  phonePrefix : option string;
  whiteList : option (list string);
  all : option bool;
  isTest : option bool;
  isGrayVersion : option bool
}.

(** [{}] *)
Definition empty : t := mk None None None None None None None.

(** [{ isOpen: false }] *)
Definition closed : t := mk (Some false) None None None None None None.

(** [Object.assign({}, rule, { isGrayVersion: b })] *)
Definition assignDecision (rule : t) (b : bool) : t :=
  mk (isOpen rule) (areaCode rule) (phonePrefix rule) (whiteList rule)
     (all rule) (isTest rule) (Some b).
End GrayRule.

Definition SUBPACKAGES_ROOT : string := "grayVersion".

(** ** Rule evaluator *)

(** [checkIsGrayVersionTargetUser({ rule, userInfo })]; [userInfo] may be
    [undefined] (it is read with [?.]). *)
Definition checkIsGrayVersionTargetUser
    (rule : GrayRule.t) (userInfo : option UserInfo.t) : bool :=
  let isOpen := Js.withDefault false (GrayRule.isOpen rule) in
  let areaCode := Js.withDefault [] (GrayRule.areaCode rule) in
  let phonePrefix := Js.withDefault "" (GrayRule.phonePrefix rule) in
  let whiteList := Js.withDefault [] (GrayRule.whiteList rule) in
  let all := Js.withDefault false (GrayRule.all rule) in
  if negb isOpen then false
  else if all then true
  else if (1 <=? List.length areaCode)%nat
          && match areaCode with c :: _ => String.eqb c "all" | [] => false end
       then true
  else
    let userAreaCode :=
      Js.orEmpty (match userInfo with Some u => UserInfo.areaCode u | None => None end) in
    if Js.some (fun code => Js.startsWith userAreaCode code) areaCode then true
    else
      let userMobilePhone :=
        Js.orEmpty (match userInfo with Some u => UserInfo.mobilePhone u | None => None end) in
      if (0 <? String.length phonePrefix)%nat
         && Js.startsWith userMobilePhone phonePrefix then true
      else if Js.includes whiteList userMobilePhone then true
      else false.


(** ** The host: storage, page stack, navigation, network *)

(** The three navigation operations that [wxProxy] replaces. *)
Inductive RouteApi := NavigateTo | RedirectTo | ReLaunch.

(** The argument of a navigation call: [url], the marker [notProxy], and the
    remaining properties (callbacks, events), which this module never reads. *)
Record RouteObject := mkRouteObject {
  url : string;
  notProxy : option bool;
  others : list (string * string)
}.

(** [{ ...object, url }] *)
Definition withUrl (object : RouteObject) (u : string) : RouteObject :=
  mkRouteObject u (notProxy object) (others object).

(** The body of the reply of [/api/grayVersionRule] once parsed: [null], or an
    object with the properties [code] and [data]. *)
Inductive JsonBody :=
| JNull
| JObject (code : option Z) (data : option GrayRule.t).

(** What [fetch] meets: a transport failure (time-out, no connection), or a
    reply, whose payload may fail to parse ([None]). *)
Inductive FetchOutcome :=
| FetchFails
| FetchReplies (body : option JsonBody).

Inductive JsError := TypeError | SyntaxError | NetworkError.

(** The calls made on the host, as they are recorded. [EvRoute] is a call that
    reaches the original navigation operation of the platform. *)
Inductive Event :=
| EvGetStorage
| EvSetStorage (v : option GrayRule.t)
| EvRemoveStorage
| EvGetEnterOptions
| EvRoute (api : RouteApi) (object : RouteObject)
| EvFetch
| EvConsoleError.

(** The state the module reads and writes. [storage] is the value under the
    key ['GRAY_VERSION'] ([None]: nothing stored, the host then answers with
    an empty value); [pageStack] lists the routes of [getCurrentPages()];
    [enterQuery] the entries of [wx.getEnterOptionsSync().query], in order;
    [wxLayers] counts how often [wx] was replaced by [wxProxy(wx)]. *)
Record World := mkWorld {
  isGrayVersionOpen : bool;
  storage : option GrayRule.t;
  pageStack : list string;
  enterQuery : list (string * string);
  wxLayers : nat;
  server : FetchOutcome
}.

(** *** A state, exception and trace monad *)

Inductive Res (A : Type) :=
| Ret (a : A)
| Throw (e : JsError).
Arguments Ret {A} a.
Arguments Throw {A} e.

Definition M (A : Type) : Type := World -> Res A * World * list Event.

Definition ret {A} (a : A) : M A := fun w => (Ret a, w, []).

Definition throw {A} (e : JsError) : M A := fun w => (Throw e, w, []).

Definition bind {A B} (m : M A) (f : A -> M B) : M B :=
  fun w =>
    match m w with
    | (Ret a, w1, t1) =>
        match f a w1 with
        | (r, w2, t2) => (r, w2, (t1 ++ t2)%list)
        end
    | (Throw e, w1, t1) => (Throw e, w1, t1)
    end.

(** [try { m } catch (error) { h error }] *)
Definition tryCatch {A} (m : M A) (h : JsError -> M A) : M A :=
  fun w =>
    match m w with
    | (Ret a, w1, t1) => (Ret a, w1, t1)
    | (Throw e, w1, t1) =>
        match h e w1 with
        | (r, w2, t2) => (r, w2, (t1 ++ t2)%list)
        end
    end.

Notation "x <- m ;; k" := (bind m (fun x => k))
  (at level 61, m at next level, right associativity).
Notation "m ;;; k" := (bind m (fun _ => k))
  (at level 61, right associativity).

Definition resultOf {A} (x : Res A * World * list Event) : Res A := fst (fst x).
Definition worldOf {A} (x : Res A * World * list Event) : World := snd (fst x).
Definition traceOf {A} (x : Res A * World * list Event) : list Event := snd x.

(** *** Host primitives *)

Definition readToggle : M bool := fun w => (Ret (isGrayVersionOpen w), w, []).

Definition writeToggle (b : bool) : M unit :=
  fun w => (Ret tt,
            mkWorld b (storage w) (pageStack w) (enterQuery w) (wxLayers w) (server w),
            []).

(** [wx.getStorageSync('GRAY_VERSION')] *)
Definition wx_getStorageSync : M (option GrayRule.t) :=
  fun w => (Ret (storage w), w, [EvGetStorage]).

(** [wx.setStorageSync('GRAY_VERSION', v)]; [None] stands for a value without
    properties ([undefined]), which reads back like the empty value. *)
Definition wx_setStorageSync (v : option GrayRule.t) : M unit :=
  fun w => (Ret tt,
            mkWorld (isGrayVersionOpen w) v (pageStack w) (enterQuery w) (wxLayers w) (server w),
            [EvSetStorage v]).

(** [wx.removeStorageSync('GRAY_VERSION')] *)
Definition wx_removeStorageSync : M unit :=
  fun w => (Ret tt,
            mkWorld (isGrayVersionOpen w) None (pageStack w) (enterQuery w) (wxLayers w) (server w),
            [EvRemoveStorage]).

(** [getCurrentPages()] *)
Definition getCurrentPages : M (list string) := fun w => (Ret (pageStack w), w, []).

(** [wx.getEnterOptionsSync().query] *)
Definition wx_getEnterOptionsSync_query : M (list (string * string)) :=
  fun w => (Ret (enterQuery w), w, [EvGetEnterOptions]).

(** The original navigation operation of the platform. Its effect on the page
    stack belongs to the platform; the call is recorded. *)
Definition platformRoute (api : RouteApi) (object : RouteObject) : M unit :=
  fun w => (Ret tt, w, [EvRoute api object]).

(** [await fetch('/api/grayVersionRule')] *)
Definition fetchRule : M (option JsonBody) :=
  fun w =>
    match server w with
    | FetchFails => (Throw NetworkError, w, [EvFetch])
    | FetchReplies body => (Ret body, w, [EvFetch])
    end.

(** [await res.json()] *)
Definition res_json (body : option JsonBody) : M JsonBody :=
  match body with
  | Some j => ret j
  | None => throw SyntaxError
  end.

Definition console_error : M unit := fun w => (Ret tt, w, [EvConsoleError]).

(** [wx = wxProxy(wx)] *)
Definition replaceWx : M unit :=
  fun w => (Ret tt,
            mkWorld (isGrayVersionOpen w) (storage w) (pageStack w) (enterQuery w)
                    (S (wxLayers w)) (server w),
            []).

(** ** Decision store *)

(** Reading the properties of the stored value: the empty value has none. *)
Definition storedRule (s : option GrayRule.t) : GrayRule.t :=
  match s with
  | Some r => r
  | None => GrayRule.empty
  end.

(** [isGrayVersionSync()] *)
Definition isGrayVersionSync : M bool :=
  grayVersionStorage <- wx_getStorageSync ;;
  ret (Js.orFalse (GrayRule.isGrayVersion (storedRule grayVersionStorage))).

(** ** Path normaliser *)

(** The [for] loop of [fixRelativeUrl], over [parts] from index 0. *)
Fixpoint fixRelativeUrl_loop (parts stack : list string) : list string :=
  match parts with
  | [] => stack
  | part :: rest =>
      if String.eqb part "." then fixRelativeUrl_loop rest stack
      else if String.eqb part ".." then fixRelativeUrl_loop rest (Js.pop stack)
      else fixRelativeUrl_loop rest (Js.push stack part)
  end.

(** [fixRelativeUrl(base, relative)] *)
Definition fixRelativeUrl (base relative : string) : string :=
  if Js.startsWith relative "/" then Js.replaceFirst "/" relative
  else
    let stack := Js.split "/" base in
    let parts := Js.split "/" relative in
    let stack := Js.pop stack in
    Js.join "/" (fixRelativeUrl_loop parts stack).

(** The prefix removal of [routeApiProxy]:
    [if (url.startsWith(grayPrefix)) url = url.substring(grayPrefix.length)]. *)
Definition stripCanaryPrefix (url : string) : string :=
  let grayPrefix := SUBPACKAGES_ROOT ++ "/" in
  if Js.startsWith url grayPrefix then Js.slice (String.length grayPrefix) url
  else url.

(** The prefix insertion of [routeApiProxy]: the part [SUBPACKAGES_ROOT + '/' +
    url] of ['/' + SUBPACKAGES_ROOT + '/' + url], that is, what the gray branch
    puts after the leading separator where the other branch puts [url]. *)
Definition withCanaryPrefix (url : string) : string :=
  (SUBPACKAGES_ROOT ++ "/") ++ url.

(** ** Rule source *)

Inductive Promise (A : Type) :=
| Resolved (a : A)
| Rejected (e : JsError)
| Pending.
Arguments Resolved {A} a.
Arguments Rejected {A} e.
Arguments Pending {A}.

(** [new Promise(async (resolve, reject) => { ... })] for an executor that
    calls [resolve] on each path on which it returns, and never [reject]: the
    value it returns here is the one it resolves with. An exception that leaves
    an [async] executor rejects the executor's own promise only, so the promise
    built stays pending. *)
Definition newPromise {A} (executor : M A) : M (Promise A) :=
  fun w =>
    match executor w with
    | (Ret a, w1, t) => (Ret (Resolved a), w1, t)
    | (Throw _, w1, t) => (Ret Pending, w1, t)
    end.

(** [data.code === 200], on a [code] that is a number when present. *)
Definition isSuccessCode (code : option Z) : bool :=
  match code with
  | Some c => Z.eqb c 200
  | None => false
  end.

(** The executor of [getGrayVersionRule]. *)
Definition getGrayVersionRule_executor : M (option GrayRule.t) :=
  s <- wx_getStorageSync ;;
  let grayVersionRule := storedRule s in
  if Js.orFalse (GrayRule.isTest grayVersionRule) then ret (Some grayVersionRule)
  else
    tryCatch
      (res <- fetchRule ;;
       data <- res_json res ;;
       match data with
       | JNull => throw TypeError
       | JObject code d =>
           if isSuccessCode code then wx_setStorageSync d ;;; ret d
           else ret (Some GrayRule.closed)
       end)
      (fun _ => console_error ;;; ret (Some GrayRule.closed)).

(** [getGrayVersionRule()]. The call is run in one piece: what other handlers
    may do while the fetch is pending is not part of it. *)
Definition getGrayVersionRule : M (Promise (option GrayRule.t)) :=
  newPromise getGrayVersionRule_executor.

(** [setGrayVersionStorageSync(userInfo)] *)
Definition setGrayVersionStorageSync (userInfo : option UserInfo.t) : M unit :=
  open <- readToggle ;;
  if negb open then ret tt
  else
    s <- wx_getStorageSync ;;
    let rule := storedRule s in
    let isTargetUser := checkIsGrayVersionTargetUser rule userInfo in
    wx_setStorageSync (Some (GrayRule.assignDecision rule isTargetUser)).

(** [setGrayVersionStorage(userInfo)]: an [async] function, whose promise
    follows the one it awaits. When the rule it awaited is [undefined] (a reply
    with the success code and no [data]), the destructuring
    [const { isOpen = false, ... } = rule] in [checkIsGrayVersionTargetUser]
    throws a [TypeError]: the promise is rejected and nothing more is written. *)
Definition setGrayVersionStorage (userInfo : option UserInfo.t) : M (Promise unit) :=
  open <- readToggle ;;
  if negb open then ret (Resolved tt)
  else
    p <- getGrayVersionRule ;;
    match p with
    | Resolved (Some rule) =>
        let isTargetUser := checkIsGrayVersionTargetUser rule userInfo in
        wx_setStorageSync (Some (GrayRule.assignDecision rule isTargetUser)) ;;;
        ret (Resolved tt)
    | Resolved None => ret (Rejected TypeError)
    | Rejected e => ret (Rejected e)
    | Pending => ret Pending
    end.

(** ** Navigation interceptor and redirect trigger *)

(** The parameter of [redirectToGrayPage]. *)
Record RedirectToGrayPageParams := mkParams {
  grayPages : option (list string);
  userInfo : option UserInfo.t
}.

(** [Object.keys(q).length > 0 ? '?' + Object.entries(q).map(...).join('&') : ''] *)
Definition urlParamsOf (query : list (string * string)) : string :=
  if (0 <? List.length query)%nat
  then "?" ++ Js.join "&" (map (fun v => (fst v ++ "=") ++ snd v) query)
  else "".

(** The prefix removal of [redirectToGrayPage]:
    [if (url.startsWith(SUBPACKAGES_ROOT)) url = url.slice(SUBPACKAGES_ROOT.length + 1)]. *)
Definition removeSubpackagesRoot (url : string) : string :=
  if Js.startsWith url SUBPACKAGES_ROOT
  then Js.slice (String.length SUBPACKAGES_ROOT + 1) url
  else url.

Section Routing.

(** [import GRAY_PAGES from './grayPages.js']: that module is not among the
    sources; its default export is the array of canary page paths. *)
Variable GRAY_PAGES : list string.

(** [routeApiProxy(wxRouteApi)], applied to [object]. *)
Definition routeApiProxy (wxRouteApi : RouteObject -> M unit)
    (object : RouteObject) : M unit :=
  if Js.orFalse (notProxy object) then wxRouteApi object
  else
    pages <- getCurrentPages ;;
    match Js.lastOf pages with
    | None => throw TypeError
    | Some source =>
        let url := fixRelativeUrl source (url object) in
        let url := stripCanaryPrefix url in
        let isGrayPage := Js.some (fun p => Js.startsWith url p) GRAY_PAGES in
        isGrayVersion <- isGrayVersionSync ;;
        let url :=
          if isGrayPage && isGrayVersion then "/" ++ withCanaryPrefix url
          else "/" ++ url in
        wxRouteApi (withUrl object url)
    end.

Definition navigateToProxy (navigateTo : RouteObject -> M unit) := routeApiProxy navigateTo.
Definition redirectToProxy (redirectTo : RouteObject -> M unit) := routeApiProxy redirectTo.
Definition reLaunchProxy (reLaunch : RouteObject -> M unit) := routeApiProxy reLaunch.

(** The navigation operation [api] of the object [wx] after [layers]
    replacements [wx = wxProxy(wx)]. *)
Fixpoint wxProxy (layers : nat) (api : RouteApi) : RouteObject -> M unit :=
  match layers with
  | O => platformRoute api
  | S k =>
      match api with
      | NavigateTo => navigateToProxy (wxProxy k NavigateTo)
      | RedirectTo => redirectToProxy (wxProxy k RedirectTo)
      | ReLaunch => reLaunchProxy (wxProxy k ReLaunch)
      end
  end.

(** [wx.navigateTo], [wx.redirectTo], [wx.reLaunch] on the current [wx]. *)
Definition wx_route (api : RouteApi) (object : RouteObject) : M unit :=
  fun w => wxProxy (wxLayers w) api object w.

(** [redirectToGrayPage({ grayPages, userInfo })] *)
Definition redirectToGrayPage (params : RedirectToGrayPageParams) : M bool :=
  let grayPages := Js.withDefault [] (grayPages params) in
  let userInfo := userInfo params in
  open <- readToggle ;;
  if negb open then ret false
  else
    s <- wx_getStorageSync ;;
    let rule := storedRule s in
    let isTargetUser := checkIsGrayVersionTargetUser rule userInfo in
    isGrayVersion <- isGrayVersionSync ;;
    let isRedirect := negb (Bool.eqb isTargetUser isGrayVersion) in
    wx_setStorageSync (Some (GrayRule.assignDecision rule isTargetUser)) ;;;
    pages <- getCurrentPages ;;
    let url := Js.orEmpty (Js.lastOf pages) in
    let isGrayPage := Js.some (fun page => Js.startsWith url page) grayPages in
    if negb isGrayPage then ret false
    else
      query <- wx_getEnterOptionsSync_query ;;
      let urlParams := urlParamsOf query in
      let url := removeSubpackagesRoot url in
      if isRedirect then
        if isGrayPage && isTargetUser then
          wx_route RedirectTo
            (mkRouteObject (((("/" ++ SUBPACKAGES_ROOT) ++ "/") ++ url) ++ urlParams)
                           (Some true) []) ;;;
          ret true
        else if isGrayPage && negb isTargetUser then
          wx_route RedirectTo
            (mkRouteObject (("/" ++ url) ++ urlParams) (Some true) []) ;;;
          ret true
        else ret false
      else ret false.

(** [enableGrayVersion(grayRule = {})] *)
Definition enableGrayVersion (grayRule : option GrayRule.t) : M unit :=
  let grayRule := Js.withDefault GrayRule.empty grayRule in
  wx_removeStorageSync ;;;
  if negb (Js.orFalse (GrayRule.isOpen grayRule)) then writeToggle false
  else
    writeToggle true ;;;
    (if Js.orFalse (GrayRule.isTest grayRule)
     then wx_setStorageSync (Some grayRule)
     else ret tt) ;;;
    replaceWx.

End Routing.

(** ** The resolution of a relative path, as the specification words it *)

(** One segment of the target applied to the stack, whose top (the last
    segment of the path) comes first: [.] is a no-op, [..] pops one segment,
    anything else pushes. *)
Definition applySegment (stack : list string) (segment : string) : list string :=
  if String.eqb segment "." then stack
  else if String.eqb segment ".." then tl stack
  else segment :: stack.

(** [resolve(currentPath, target)]: a target that starts with the separator
    yields the remainder after it; otherwise the current path is split into a
    stack, its last segment is dropped, each segment of the target is applied,
    and the stack is joined. *)
Definition resolve_spec (currentPath target : string) : string :=
  match target with
  | String "/"%char remainder => remainder
  | _ =>
      let stack := tl (rev (Js.split "/" currentPath)) in
      Js.join "/" (rev (fold_left applySegment (Js.split "/" target) stack))
  end.

(** ** Observations used to state the properties *)

(** The route of the current page, as [redirectToGrayPage] reads it:
    [currentPage?.route || '']. *)
Definition currentRoute (w : World) : string := Js.orEmpty (Js.lastOf (pageStack w)).

(** The decision persisted by the last run: [isGrayVersionSync()] without the
    record of the read. *)
Definition previousDecision (w : World) : bool :=
  Js.orFalse (GrayRule.isGrayVersion (storedRule (storage w))).

(** The verdict of the stored rule on [userInfo]. *)
Definition freshVerdict (w : World) (userInfo : option UserInfo.t) : bool :=
  checkIsGrayVersionTargetUser (storedRule (storage w)) userInfo.

(** The record [redirectToGrayPage] persists. *)
Definition freshRecord (w : World) (userInfo : option UserInfo.t) : GrayRule.t :=
  GrayRule.assignDecision (storedRule (storage w)) (freshVerdict w userInfo).

(** [pages.some(page => path.startsWith(page))] *)
Definition matchesPages (pages : list string) (path : string) : bool :=
  Js.some (fun page => Js.startsWith path page) pages.

(** The navigation calls of a trace, in order. *)
Fixpoint navigations (t : list Event) : list (RouteApi * RouteObject) :=
  match t with
  | [] => []
  | EvRoute api object :: rest => (api, object) :: navigations rest
  | _ :: rest => navigations rest
  end.

(** The corrective navigation: the page [path] under the canary prefix when
    [gray], without it otherwise, then [params]; marked [notProxy]. *)
Definition correctiveRedirect (gray : bool) (path params : string) : RouteObject :=
  mkRouteObject
    ("/" ++ (if gray then SUBPACKAGES_ROOT ++ "/" else "") ++ path ++ params)
    (Some true) [].

(** The query string of a url: what starts at its first [?]. *)
Fixpoint queryOf (s : string) : string :=
  match s with
  | EmptyString => EmptyString
  | String c r => if Ascii.eqb c "?" then s else queryOf r
  end.

Fixpoint noQuestionMark (s : string) : bool :=
  match s with
  | EmptyString => true
  | String c r => negb (Ascii.eqb c "?") && noQuestionMark r
  end.

Definition isDotSegment (s : string) : bool := String.eqb s "." || String.eqb s "..".

(** No segment [.] or [..] after the segment that holds the first [?]. *)
Fixpoint queryFreeOfDots (parts : list string) : bool :=
  match parts with
  | [] => true
  | p :: rest =>
      if noQuestionMark p then queryFreeOfDots rest
      else forallb (fun q => negb (isDotSegment q)) rest
  end.

(** The targets on which the resolution leaves the query string alone: the
    absolute ones, and the relative ones whose query holds no segment [.] or
    [..], resolved against a route without [?]. *)
Definition queryKept (source target : string) : bool :=
  if Js.startsWith target "/" then true
  else noQuestionMark source && queryFreeOfDots (Js.split "/" target).

(** The call of [getGrayVersionRule] stops at the test override and does not
    reach the network. *)
Definition testOverride (w : World) : bool :=
  Js.orFalse (GrayRule.isTest (storedRule (storage w))).

(** The reply carries the success code, and [d] as its [data]. *)
Definition fetchSucceeds (o : FetchOutcome) (d : option GrayRule.t) : Prop :=
  exists code, o = FetchReplies (Some (JObject code d)) /\ isSuccessCode code = true.

(** The reply is an object whose [code] is not the success code. *)
Definition fetchOtherStatus (o : FetchOutcome) : Prop :=
  exists code d, o = FetchReplies (Some (JObject code d)) /\ isSuccessCode code = false.

(** No reply (time-out, no connection), a payload that does not parse, or one
    that is not an object. *)
Definition fetchTransportFailure (o : FetchOutcome) : Prop :=
  o = FetchFails \/ o = FetchReplies None \/ o = FetchReplies (Some JNull).






(** The query-string part of C4 as the specification states it, at one call:
    every delegated call has the query string of the original one. *)
Definition keepsQueryString (GRAY_PAGES : list string) (api : RouteApi)
    (object : RouteObject) (w : World) : Prop :=
  forall delegated : RouteObject,
    In (EvRoute api delegated) (traceOf (wxProxy GRAY_PAGES 1 api object w)) ->
    queryOf (url delegated) = queryOf (url object).

(** One half of the iff of C4 as the specification states it, at one call: a
    delegated url that carries the canary prefix implies a gray decision. *)
Definition prefixOnlyWhenGray (GRAY_PAGES : list string) (api : RouteApi)
    (object : RouteObject) (w : World) : Prop :=
  forall delegated : RouteObject,
    In (EvRoute api delegated) (traceOf (wxProxy GRAY_PAGES 1 api object w)) ->
    Js.startsWith (url delegated) "/grayVersion/" = true ->
    previousDecision w = true.

(** The rule of C8 as the claim gives it: [areaCode] alone. *)
Definition sentinelOnlyRule : GrayRule.t :=
  GrayRule.mk None (Some ["all"; "110000"]) None None None None None.

(** ** The delay-loading module ([src/enableDelayLoading.js])

    The module counts the requests in flight, shows the loading indicator
    from a timer and hides it when the count is back to zero. Its state is the
    module variable [requestCount], the page stack of the host, the callbacks
    handed to [setTimeout] that have not run yet, and the closures that
    [wx = wxProxy(wx)] has stacked on [wx], one per call of
    [enableDelayLoading]. *)

Module DelayLoading.

(** The argument of [wx.showLoading] and [wx.hideLoading]. *)
Record LoadingObject := mkLoading {
  title : option string;
  isdelayloading : option bool;
  loadingRest : list (string * string)
}.

Inductive LoadingApi := ShowLoading | HideLoading.

(** What a call of the replaced [showLoading] or [hideLoading] returns: the
    result of the operation below, or the function [() => {}]. *)
Inductive LoadingReturn := Returned | NoopFunction.

(** The property [complete] of a request: missing (or not a function), a
    function of the caller, or the closure [newRequest] builds, which keeps
    the [witeListUrl] of its layer and, of the object it wraps, [url] and
    [complete]. *)
Inductive Callback :=
| NoCallback
| UserCallback (name : string)
| CountingCallback (witeListUrl : list string) (url : string) (inner : Callback).

(** The argument of [wx.request]. *)
Record RequestObject := mkRequest {
  url : string;
  complete : Callback;
  requestRest : list (string * string)
}.

(** The parameter of [enableDelayLoading], and the closure variables
    [pages] and [witeListUrl] once the defaults are applied. *)
Record Params := mkParams {
  pagesParam : option (list string);
  witeListUrlParam : option (list string)
}.

Record Config := mkConfig {
  pages : list string;
  witeListUrl : list string
}.

(** The calls that reach the platform, the timers set, and the calls of a
    callback of the caller, with the argument it is called with ([None]: called
    without an argument). *)
Inductive Event :=
| EvLoading (api : LoadingApi) (object : option LoadingObject)
| EvRequest (object : RequestObject)
| EvSetTimeout (delay : Z)
| EvUserCallback (name : string) (result : option string).

Record State := mkState {
  requestCount : Z;
  pageStack : list string;
  timers : nat;
  layers : list Config
}.

Definition M (A : Type) : Type := State -> A * State * list Event.

Definition ret {A} (a : A) : M A := fun s => (a, s, []).

Definition bind {A B} (m : M A) (f : A -> M B) : M B :=
  fun s =>
    match m s with
    | (a, s1, t1) =>
        match f a s1 with
        | (b, s2, t2) => (b, s2, (t1 ++ t2)%list)
        end
    end.

Notation "x <~ m ;; k" := (bind m (fun x => k))
  (at level 61, m at next level, right associativity).
Notation "m ;;> k" := (bind m (fun _ => k))
  (at level 61, right associativity).

Definition valueOf {A} (x : A * State * list Event) : A := fst (fst x).
Definition stateOf {A} (x : A * State * list Event) : State := snd (fst x).
Definition eventsOf {A} (x : A * State * list Event) : list Event := snd x.

(** *** Host primitives *)

Definition readCount : M Z := fun s => (requestCount s, s, []).

Definition writeCount (c : Z) : M unit :=
  fun s => (tt, mkState c (pageStack s) (timers s) (layers s), []).

Definition getCurrentPages : M (list string) := fun s => (pageStack s, s, []).

(** The original [wx.showLoading] and [wx.hideLoading]. *)
Definition platformLoading (api : LoadingApi) (object : option LoadingObject)
    : M LoadingReturn :=
  fun s => (Returned, s, [EvLoading api object]).

(** The original [wx.request]. *)
Definition platformRequest (object : RequestObject) : M unit :=
  fun s => (tt, s, [EvRequest object]).

(** [setTimeout(callback, time)], for the one callback the module sets. *)
Definition setTimeout (time : Z) : M unit :=
  fun s => (tt, mkState (requestCount s) (pageStack s) (S (timers s)) (layers s),
            [EvSetTimeout time]).

(** *** The module *)

(** A function in the place of a condition is truthy, whatever it would
    return. *)
Definition functionIsTruthy {A} (f : A) : bool := true.

(** [checkIsMatch()]: [pages.includes(curPage?.route)]. *)
Definition checkIsMatch (cfg : Config) : M bool :=
  curPages <~ getCurrentPages ;;
  ret (match Js.lastOf curPages with
       | Some route => Js.includes (pages cfg) route
       | None => false
       end).

(** [delete object.isdelayloading] *)
Definition deleteFlag (object : LoadingObject) : LoadingObject :=
  mkLoading (title object) None (loadingRest object).

(** [loadingApiProxy(loadingApi)], applied to [object]. The source tests
    [checkIsMatch], the function, not [checkIsMatch()]. *)
Definition loadingApiProxy (cfg : Config)
    (loadingApi : option LoadingObject -> M LoadingReturn)
    (object : option LoadingObject) : M LoadingReturn :=
  if functionIsTruthy (checkIsMatch cfg) then
    match object with
    | Some o =>
        if Js.orFalse (isdelayloading o) then loadingApi (Some (deleteFlag o))
        else ret NoopFunction
    | None => ret NoopFunction
    end
  else loadingApi object.

(** [wx.showLoading] and [wx.hideLoading] under the layers given, the latest
    first. *)
Fixpoint wxLoading (ls : list Config) (api : LoadingApi)
    : option LoadingObject -> M LoadingReturn :=
  match ls with
  | [] => platformLoading api
  | cfg :: rest => loadingApiProxy cfg (wxLoading rest api)
  end.

(** [wx.showLoading(object)] and [wx.hideLoading(object)] on the current [wx]. *)
Definition wx_loading (api : LoadingApi) (object : option LoadingObject)
    : M LoadingReturn :=
  fun s => wxLoading (layers s) api object s.

(** The callback [setReqDelay] hands to [setTimeout]:
    [requestCount !== 0 && wx.showLoading({ title: 'loading', isdelayloading: true })]. *)
Definition timerCallback : M unit :=
  c <~ readCount ;;
  if negb (Z.eqb c 0)
  then wx_loading ShowLoading (Some (mkLoading (Some "loading") (Some true) [])) ;;> ret tt
  else ret tt.

(** [setReqDelay(time = 500)] *)
Definition setReqDelay (time : option Z) : M unit :=
  let time := Js.withDefault 500%Z time in
  c <~ readCount ;;
  writeCount (c + 1) ;;>
  setTimeout time.

(** [endReq()] *)
Definition endReq : M unit :=
  c <~ readCount ;;
  writeCount (c - 1) ;;>
  c <~ readCount ;;
  if Z.eqb c 0
  then wx_loading HideLoading (Some (mkLoading None (Some true) [])) ;;> ret tt
  else ret tt.

(** [witeListUrl.every(url => object.url.indexOf(url) < 0)] *)
Definition notInWhiteList (witeListUrl : list string) (objectUrl : string) : bool :=
  forallb (fun u => match String.index 0 u objectUrl with
                    | Some _ => false
                    | None => true
                    end) witeListUrl.

(** [newRequest(object)] of [requestProxy(request)]. *)
Definition newRequest (cfg : Config) (request : RequestObject -> M unit)
    (object : RequestObject) : M unit :=
  isMatch <~ checkIsMatch cfg ;;
  if isMatch then
    (if notInWhiteList (witeListUrl cfg) (url object) then setReqDelay None else ret tt) ;;>
    request (mkRequest (url object)
               (CountingCallback (witeListUrl cfg) (url object) (complete object))
               (requestRest object))
  else request object.

(** [wx.request] under the layers given, the latest first. *)
Fixpoint wxRequest (ls : list Config) : RequestObject -> M unit :=
  match ls with
  | [] => platformRequest
  | cfg :: rest => newRequest cfg (wxRequest rest)
  end.

(** [wx.request(object)] on the current [wx]. *)
Definition wx_request (object : RequestObject) : M unit :=
  fun s => wxRequest (layers s) object s.

(** The platform calling [complete(result)]. A function of the caller gets
    the result. The closure of [newRequest] takes no parameter: it runs
    [endReq] unless the url is white-listed, then calls the [complete] it
    wrapped, when that is a function, as [object.complete()], without an
    argument. *)
Fixpoint runCallback (cb : Callback) (result : option string) : M unit :=
  match cb with
  | NoCallback => ret tt
  | UserCallback name => fun s => (tt, s, [EvUserCallback name result])
  | CountingCallback witeListUrl objectUrl inner =>
      (if notInWhiteList witeListUrl objectUrl then endReq else ret tt) ;;>
      runCallback inner None
  end.

(** The host running one of the callbacks handed to [setTimeout]; with none
    pending nothing happens. [clearTimeout(timer)] on the timer that is
    running changes nothing. *)
Definition fireTimer : M unit :=
  fun s =>
    match timers s with
    | O => (tt, s, [])
    | S n => timerCallback (mkState (requestCount s) (pageStack s) n (layers s))
    end.

(** [enableDelayLoading({ pages = [], witeListUrl = [] })]: [wx = wxProxy(wx)]. *)
Definition enableDelayLoading (params : Params) : M unit :=
  let cfg := mkConfig (Js.withDefault [] (pagesParam params))
                      (Js.withDefault [] (witeListUrlParam params)) in
  fun s => (tt, mkState (requestCount s) (pageStack s) (timers s) (cfg :: layers s), []).

(** *** Observations *)

(** The calls of [showLoading] and [hideLoading] that reached the platform. *)
Fixpoint loadingCalls (t : list Event) : list (LoadingApi * option LoadingObject) :=
  match t with
  | [] => []
  | EvLoading api object :: rest => (api, object) :: loadingCalls rest
  | _ :: rest => loadingCalls rest
  end.

(** The requests that reached the platform. *)
Fixpoint requestCalls (t : list Event) : list RequestObject :=
  match t with
  | [] => []
  | EvRequest object :: rest => object :: requestCalls rest
  | _ :: rest => requestCalls rest
  end.

(** How many times running a callback calls [endReq]. *)
Fixpoint decrementsOf (cb : Callback) : Z :=
  match cb with
  | NoCallback => 0
  | UserCallback _ => 0
  | CountingCallback witeListUrl objectUrl inner =>
      ((if notInWhiteList witeListUrl objectUrl then 1 else 0) + decrementsOf inner)%Z
  end.

(** A [complete] that is the caller's own: missing, or a function of the
    caller. *)
Definition ownCallback (cb : Callback) : bool :=
  match cb with
  | CountingCallback _ _ _ => false
  | _ => true
  end.

(** The closure [newRequest] puts in the place of [complete]. *)
Definition wrapped (cfg : Config) (object : RequestObject) : RequestObject :=
  mkRequest (url object)
    (CountingCallback (witeListUrl cfg) (url object) (complete object))
    (requestRest object).

(** The current page is one of [pages]. *)
Definition onListedPage (cfg : Config) (s : State) : bool :=
  match Js.lastOf (pageStack s) with
  | Some route => Js.includes (pages cfg) route
  | None => false
  end.

(** No layer is set for the route of the current page. *)
Definition noLayerMatches (ls : list Config) (stack : list string) : bool :=
  match Js.lastOf stack with
  | Some route => forallb (fun cfg => negb (Js.includes (pages cfg) route)) ls
  | None => true
  end.

(** *** Sample values for the concrete runs *)

(** One layer for the page [pages/index/index], with one white-listed url. *)
Definition sampleConfig : Config :=
  mkConfig ["pages/index/index"] ["https://api.xxx.com/xxx"].

Definition sampleState : State :=
  mkState 0 ["pages/index/index"] 0 [sampleConfig].

Definition sampleRequest : RequestObject :=
  mkRequest "https://api.example.com/list" (UserCallback "onComplete") [].

End DelayLoading.

(** ** Observations used by the further properties *)

(** [userInfo?.areaCode || ''] *)
Definition userAreaCode (userInfo : option UserInfo.t) : string :=
  Js.orEmpty (match userInfo with Some u => UserInfo.areaCode u | None => None end).

(** [userInfo?.mobilePhone || ''] *)
Definition userMobilePhone (userInfo : option UserInfo.t) : string :=
  Js.orEmpty (match userInfo with Some u => UserInfo.mobilePhone u | None => None end).

(** A rule with further area codes and white-list entries added at the end
    of its lists. *)
Definition extendRule (rule : GrayRule.t) (codes phones : list string) : GrayRule.t :=
  GrayRule.mk (GrayRule.isOpen rule)
    (Some (Js.withDefault [] (GrayRule.areaCode rule) ++ codes)%list)
    (GrayRule.phonePrefix rule)
    (Some (Js.withDefault [] (GrayRule.whiteList rule) ++ phones)%list)
    (GrayRule.all rule) (GrayRule.isTest rule) (GrayRule.isGrayVersion rule).

(** A string without the separator: one segment of a path. *)
Fixpoint noSlash (s : string) : bool :=
  match s with
  | EmptyString => true
  | String c r => negb (Ascii.eqb c "/") && noSlash r
  end.

(** [k] steps to the parent directory: ["../"] repeated [k] times. *)
Fixpoint parentSteps (k : nat) : string :=
  match k with
  | O => ""
  | S n => "../" ++ parentSteps n
  end.

(** Sample values for the concrete runs. *)

(** A world with the toggle on, a stored rule open to all and the decision
    [false]. *)
Definition sampleWorld (srv : FetchOutcome) : World :=
  mkWorld true
    (Some (GrayRule.mk (Some true) None None None (Some true) None (Some false)))
    ["pages/a/index"] [("id", "1")] 1 srv.

(** A world in test mode. *)
Definition sampleTestWorld : World :=
  mkWorld true
    (Some (GrayRule.mk (Some true) (Some ["11"]) None None None (Some true) None))
    ["pages/a/index"] [] 1 FetchFails.

(** * Properties *)

(** ** Rule evaluator *)

Lemma checkIsGrayVersionTargetUser_all_open rule userInfo :
  GrayRule.isOpen rule = Some true ->
  GrayRule.all rule = Some true ->
  checkIsGrayVersionTargetUser rule userInfo = true.
Proof.
  intros Hopen Hall. unfold checkIsGrayVersionTargetUser.
  rewrite Hopen, Hall. reflexivity.
Qed.

(** C3. A rule whose [isOpen] is [false] or missing yields [false] for every
    user, whatever [all], [areaCode], [phonePrefix] and [whiteList] hold. *)
Theorem checkIsGrayVersionTargetUser_not_open :
  forall (rule : GrayRule.t) (userInfo : option UserInfo.t),
    GrayRule.isOpen rule = Some false \/ GrayRule.isOpen rule = None ->
    checkIsGrayVersionTargetUser rule userInfo = false.
Proof.
  intros rule userInfo [H | H]; unfold checkIsGrayVersionTargetUser;
    rewrite H; reflexivity.
Qed.

(** C8, as stated, fails: with no [isOpen] the rule [{areaCode: ["all",
    "110000"]}] is closed, and no user is a target. *)
Lemma sentinel_rule_without_isOpen_is_closed :
  ~ (forall userInfo : option UserInfo.t,
       checkIsGrayVersionTargetUser sentinelOnlyRule userInfo = true).
Proof.
  intros H. specialize (H None). vm_compute in H. discriminate H.
Qed.

(** C8, amended. For an open rule whose [areaCode] starts with the sentinel
    ["all"], every user is a target: the rest of [areaCode], the other fields
    of the rule and the user's attributes (present or not) play no part. *)
Theorem checkIsGrayVersionTargetUser_sentinel_first :
  forall (rule : GrayRule.t) (rest : list string) (userInfo : option UserInfo.t),
    GrayRule.isOpen rule = Some true ->
    GrayRule.areaCode rule = Some ("all" :: rest) ->
    checkIsGrayVersionTargetUser rule userInfo = true.
Proof.
  intros rule rest userInfo Hopen Harea. unfold checkIsGrayVersionTargetUser.
  rewrite Hopen, Harea. simpl.
  destruct (GrayRule.all rule) as [[|]|]; reflexivity.
Qed.

(** ** Path normaliser *)

Lemma rev_pop {A} (l : list A) : rev (Js.pop l) = tl (rev l).
Proof.
  unfold Js.pop. destruct (rev l) as [|x r] eqn:E.
  - apply (f_equal (@rev A)) in E. rewrite rev_involutive in E. subst l. reflexivity.
  - apply (f_equal (@rev A)) in E. rewrite rev_involutive in E. subst l.
    simpl. rewrite removelast_last, rev_involutive. reflexivity.
Qed.

Lemma rev_push {A} (l : list A) (x : A) : rev (Js.push l x) = x :: rev l.
Proof. unfold Js.push. apply rev_unit. Qed.

(** The loop of the source, on an array that grows at its end, against the
    fold on a stack that grows at its head. *)
Lemma fixRelativeUrl_loop_fold (parts stack : list string) :
  rev (fixRelativeUrl_loop parts stack) = fold_left applySegment parts (rev stack).
Proof.
  revert stack. induction parts as [|part rest IH]; intros stack; simpl.
  - reflexivity.
  - unfold applySegment at 2.
    destruct (String.eqb part "."); [apply IH|].
    destruct (String.eqb part "..").
    + rewrite IH, rev_pop. reflexivity.
    + rewrite IH, rev_push. reflexivity.
Qed.

Lemma fixRelativeUrl_absolute (base remainder : string) :
  fixRelativeUrl base (String "/" remainder) = remainder.
Proof. destruct remainder; reflexivity. Qed.

Lemma fixRelativeUrl_relative (base relative : string) :
  Js.startsWith relative "/" = false ->
  fixRelativeUrl base relative =
  Js.join "/" (fixRelativeUrl_loop (Js.split "/" relative) (Js.pop (Js.split "/" base))).
Proof. intros H. unfold fixRelativeUrl. rewrite H. reflexivity. Qed.

Lemma startsWith_slash (s : string) :
  Js.startsWith s "/" = match s with String "/"%char _ => true | _ => false end.
Proof.
  unfold Js.startsWith. destruct s as [|c r]; [reflexivity|].
  simpl. destruct (Ascii.ascii_dec "/" c) as [E|E].
  - subst c. destruct r; reflexivity.
  - destruct c as [[] [] [] [] [] [] [] []]; try reflexivity; contradiction E; reflexivity.
Qed.

(** C6. [fixRelativeUrl] is the resolution the specification describes, on
    every pair of strings; the two examples hold; and a target that pops past
    the root of the stack still yields a (malformed) path. *)
Theorem fixRelativeUrl_resolves :
  (forall currentPath target : string,
      fixRelativeUrl currentPath target = resolve_spec currentPath target)
  /\ fixRelativeUrl "pages/a/index" "../b/index" = "pages/b/index"
  /\ fixRelativeUrl "pages/a/index" "/pages/c/index" = "pages/c/index"
  /\ fixRelativeUrl "pages/a/index" "../../../../x" = "x".
Proof.
  split; [|repeat split; reflexivity].
  intros currentPath target.
  destruct (Js.startsWith target "/") eqn:E.
  - rewrite startsWith_slash in E.
    destruct target as [|c r]; [discriminate|].
    destruct c as [[] [] [] [] [] [] [] []]; try discriminate E.
    apply fixRelativeUrl_absolute.
  - rewrite (fixRelativeUrl_relative _ _ E).
    assert (Hspec : resolve_spec currentPath target =
                    Js.join "/" (rev (fold_left applySegment (Js.split "/" target)
                                        (tl (rev (Js.split "/" currentPath)))))).
    { rewrite startsWith_slash in E. unfold resolve_spec.
      destruct target as [|c r]; [reflexivity|].
      destruct c as [[] [] [] [] [] [] [] []]; try reflexivity. discriminate E. }
    rewrite Hspec, <- rev_pop, <- fixRelativeUrl_loop_fold, rev_involutive.
    reflexivity.
Qed.

Lemma prefix_empty (s : string) : String.prefix "" s = true.
Proof. destruct s; reflexivity. Qed.

Lemma stripCanaryPrefix_prefixed (p : string) :
  stripCanaryPrefix (withCanaryPrefix p) = p.
Proof.
  unfold stripCanaryPrefix, withCanaryPrefix, Js.startsWith. simpl.
  rewrite prefix_empty. reflexivity.
Qed.

(** C7. Stripping the prefix from what the prefix insertion built gives the
    path back, for every path (so for those that carry no prefix); so does the
    interceptor when it is handed the url it delegated under the prefix, since
    it strips after [fixRelativeUrl] took the leading separator away; and
    stripping a path that does not start with the prefix changes nothing. *)
Theorem canary_prefix_round_trip :
  (forall p : string, stripCanaryPrefix (withCanaryPrefix p) = p)
  /\ (forall source p : string,
         stripCanaryPrefix (fixRelativeUrl source ("/" ++ withCanaryPrefix p)) = p)
  /\ (forall p : string,
         Js.startsWith p (SUBPACKAGES_ROOT ++ "/") = false ->
         stripCanaryPrefix p = p).
Proof.
  split; [|split].
  - apply stripCanaryPrefix_prefixed.
  - intros source p.
    change ("/" ++ withCanaryPrefix p) with (String "/" (withCanaryPrefix p)).
    rewrite fixRelativeUrl_absolute. apply stripCanaryPrefix_prefixed.
  - intros p H. unfold stripCanaryPrefix. rewrite H. reflexivity.
Qed.

(** Running a computation of [M]: the host primitives and the monad unfold,
    the code under test does not. *)
Ltac run_host :=
  cbv beta iota zeta delta
    [bind ret throw tryCatch newPromise
     readToggle writeToggle wx_getStorageSync wx_setStorageSync
     wx_removeStorageSync getCurrentPages wx_getEnterOptionsSync_query
     platformRoute fetchRule res_json console_error replaceWx isGrayVersionSync
     isGrayVersionOpen storage pageStack enterQuery wxLayers server
     grayPages userInfo resultOf worldOf traceOf fst snd
     negb andb Bool.eqb app].

(** ** Redirect trigger *)

Section RoutingProperties.

Variable GRAY_PAGES : list string.

(** A call that carries the marker goes through every layer of [wxProxy]
    untouched. *)
Lemma wxProxy_notProxy (layers : nat) (api : RouteApi) (object : RouteObject) :
  Js.orFalse (notProxy object) = true ->
  wxProxy GRAY_PAGES layers api object = platformRoute api object.
Proof.
  intros H. induction layers as [|k IH]; [reflexivity|].
  destruct api; simpl;
    unfold navigateToProxy, redirectToProxy, reLaunchProxy, routeApiProxy;
    rewrite H; exact IH.
Qed.

Lemma wx_route_notProxy (api : RouteApi) (object : RouteObject) (w : World) :
  Js.orFalse (notProxy object) = true ->
  wx_route GRAY_PAGES api object w = (Ret tt, w, [EvRoute api object]).
Proof.
  intros H. unfold wx_route. rewrite (wxProxy_notProxy _ _ _ H). reflexivity.
Qed.

(** What one run of [redirectToGrayPage] returns, leaves and records. *)
Lemma redirectToGrayPage_run (params : RedirectToGrayPageParams) (w : World) :
  let pages := Js.withDefault [] (grayPages params) in
  let user := userInfo params in
  let verdict := freshVerdict w user in
  let written := Some (freshRecord w user) in
  let w' := mkWorld (isGrayVersionOpen w) written (pageStack w) (enterQuery w)
                    (wxLayers w) (server w) in
  redirectToGrayPage GRAY_PAGES params w =
  if negb (isGrayVersionOpen w) then (Ret false, w, [])
  else if negb (matchesPages pages (currentRoute w)) then
    (Ret false, w', [EvGetStorage; EvGetStorage; EvSetStorage written])
  else if negb (Bool.eqb verdict (previousDecision w)) then
    (Ret true, w',
     [EvGetStorage; EvGetStorage; EvSetStorage written; EvGetEnterOptions;
      EvRoute RedirectTo
        (correctiveRedirect verdict (removeSubpackagesRoot (currentRoute w))
           (urlParamsOf (enterQuery w)))])
  else
    (Ret false, w',
     [EvGetStorage; EvGetStorage; EvSetStorage written; EvGetEnterOptions]).
Proof.
  destruct w as [open st stack query layers srv].
  destruct params as [gp user].
  unfold freshRecord, freshVerdict, previousDecision, currentRoute, matchesPages.
  cbn [isGrayVersionOpen storage pageStack enterQuery wxLayers server].
  unfold redirectToGrayPage.
  run_host.
  destruct open; run_host; [|reflexivity].
  destruct (Js.some _ (Js.withDefault [] gp)) eqn:Hpage; run_host; [|reflexivity].
  destruct (checkIsGrayVersionTargetUser (storedRule st) user) eqn:Hv;
    destruct (Js.orFalse (GrayRule.isGrayVersion (storedRule st))) eqn:Hp;
    run_host; try reflexivity.
  all: rewrite wx_route_notProxy by reflexivity; reflexivity.
Qed.

(** C9. In the calls recorded by a run of [redirectToGrayPage], every
    navigation comes after the write that persists the newly computed
    decision: the record written before it has the fields of the stored rule
    and, as [isGrayVersion], the verdict the evaluator gives for the stored
    rule and the user; no navigation precedes that write; and when the run
    ends the storage holds this record, so that the decision read next is the
    new one. *)
Theorem redirectToGrayPage_persists_before_navigating :
  forall (params : RedirectToGrayPageParams) (w : World)
         (before after : list Event) (api : RouteApi) (object : RouteObject),
    traceOf (redirectToGrayPage GRAY_PAGES params w)
    = (before ++ EvRoute api object :: after)%list ->
    let rule := storedRule (storage w) in
    let verdict := checkIsGrayVersionTargetUser rule (userInfo params) in
    let record :=
      GrayRule.mk (GrayRule.isOpen rule) (GrayRule.areaCode rule)
        (GrayRule.phonePrefix rule) (GrayRule.whiteList rule)
        (GrayRule.all rule) (GrayRule.isTest rule) (Some verdict) in
    In (EvSetStorage (Some record)) before
    /\ navigations before = []
    /\ (forall v, In (EvSetStorage v) before -> v = Some record)
    /\ storage (worldOf (redirectToGrayPage GRAY_PAGES params w)) = Some record
    /\ resultOf (isGrayVersionSync (worldOf (redirectToGrayPage GRAY_PAGES params w)))
       = Ret verdict.
Proof.
  intros params w before after api object H rule verdict record.
  subst record verdict rule.
  rewrite redirectToGrayPage_run in *.
  unfold freshRecord, freshVerdict in *.
  destruct (negb (isGrayVersionOpen w));
    [|destruct (negb (matchesPages _ (currentRoute w)));
      [|destruct (negb (Bool.eqb _ (previousDecision w)))]];
    cbn [traceOf worldOf fst snd storage] in *.
  all: repeat (destruct before as [|? before]; cbn [app] in H;
               [ try discriminate H
               | first [discriminate H | injection H as ? H; subst] ]).
  split; [cbn [In]; auto|split; [reflexivity|split; [|split; reflexivity]]].
  intros v Hin. cbn [In] in Hin.
  destruct Hin as [Hin|[Hin|[Hin|[Hin|[]]]]]; try discriminate Hin.
  injection Hin as <-. reflexivity.
Qed.

Lemma checkIsGrayVersionTargetUser_assignDecision
    (rule : GrayRule.t) (b : bool) (user : option UserInfo.t) :
  checkIsGrayVersionTargetUser (GrayRule.assignDecision rule b) user
  = checkIsGrayVersionTargetUser rule user.
Proof. reflexivity. Qed.

(** X8. A second run on the storage the first one left, whatever page the host
    shows by then, finds verdict and decision equal and issues nothing. *)
Lemma redirectToGrayPage_second_run (params : RedirectToGrayPageParams) (w w2 : World) :
  isGrayVersionOpen w = true ->
  storage w2 = storage (worldOf (redirectToGrayPage GRAY_PAGES params w)) ->
  resultOf (redirectToGrayPage GRAY_PAGES params w2) = Ret false
  /\ navigations (traceOf (redirectToGrayPage GRAY_PAGES params w2)) = [].
Proof.
  intros Hopen Hst.
  assert (Hw : storage w2 = Some (freshRecord w (userInfo params))).
  { rewrite Hst, redirectToGrayPage_run, Hopen. cbn [negb].
    destruct (negb (matchesPages _ (currentRoute w)));
      [|destruct (negb (Bool.eqb _ (previousDecision w)))]; reflexivity. }
  assert (Hsame : negb (Bool.eqb (freshVerdict w2 (userInfo params)) (previousDecision w2))
                  = false).
  { unfold freshVerdict, previousDecision. rewrite Hw. cbn [storedRule].
    unfold freshRecord. rewrite checkIsGrayVersionTargetUser_assignDecision.
    cbn [GrayRule.assignDecision GrayRule.isGrayVersion Js.orFalse].
    rewrite Bool.eqb_reflx. reflexivity. }
  rewrite redirectToGrayPage_run, Hsame.
  destruct (negb (isGrayVersionOpen w2)); [split; reflexivity|].
  destruct (negb (matchesPages _ (currentRoute w2))); split; reflexivity.
Qed.

(** C1, at an input on which the code departs from it. The page
    [grayVersion/pages/a/index] lies under the canary prefix and its
    prefix-stripped path [pages/a/index] starts with the supplied page prefix;
    the persisted decision is [true] and the fresh verdict [false]. The source
    tests the route before it strips the prefix, so the run returns [false],
    having issued no navigation. *)
Theorem redirectToGrayPage_tests_route_before_stripping :
  let w := mkWorld true
             (Some (GrayRule.mk (Some true) None None None None None (Some true)))
             ["grayVersion/pages/a/index"] [] 1 FetchFails in
  let params := mkParams (Some ["pages/a/index"]) None in
  let out := redirectToGrayPage GRAY_PAGES params w in
  removeSubpackagesRoot (currentRoute w) = "pages/a/index"
  /\ matchesPages ["pages/a/index"] (removeSubpackagesRoot (currentRoute w)) = true
  /\ freshVerdict w None = false
  /\ previousDecision w = true
  /\ resultOf out = Ret false
  /\ navigations (traceOf out) = [].
Proof.
  cbv zeta. rewrite redirectToGrayPage_run. repeat split; reflexivity.
Qed.

End RoutingProperties.

(** ** Query strings through the path normaliser *)

Lemma split_not_nil (s : string) : Js.split "/" s <> [].
Proof.
  destruct s as [|c r]; simpl; [discriminate|].
  destruct (Ascii.eqb c "/"); [discriminate|].
  destruct (Js.split "/" r); discriminate.
Qed.

Lemma join_cons (sep x : string) (l : list string) :
  l <> [] -> Js.join sep (x :: l) = x ++ sep ++ Js.join sep l.
Proof. destruct l; [contradiction|reflexivity]. Qed.

Lemma join_split (s : string) : Js.join "/" (Js.split "/" s) = s.
Proof.
  induction s as [|c r IH]; [reflexivity|].
  simpl. destruct (Ascii.eqb_spec c "/") as [->|Hc].
  - rewrite join_cons by apply split_not_nil. rewrite IH. reflexivity.
  - pose proof (split_not_nil r) as Hne.
    destruct (Js.split "/" r) as [|x xs]; [contradiction|].
    destruct xs as [|y ys].
    + simpl in *. rewrite IH. reflexivity.
    + rewrite join_cons in * by discriminate. rewrite <- IH. reflexivity.
Qed.

Lemma noQuestionMark_app (a b : string) :
  noQuestionMark (a ++ b) = noQuestionMark a && noQuestionMark b.
Proof.
  induction a as [|c r IH]; simpl; [reflexivity|].
  rewrite IH. apply andb_assoc.
Qed.

Lemma queryOf_app (a b : string) :
  noQuestionMark a = true -> queryOf (a ++ b) = queryOf b.
Proof.
  induction a as [|c r IH]; simpl; [reflexivity|].
  intros H. apply andb_true_iff in H as [Hc Hr].
  destruct (Ascii.eqb c "?"); [discriminate|]. auto.
Qed.

Lemma queryOf_none (s : string) : noQuestionMark s = true -> queryOf s = "".
Proof.
  induction s as [|c r IH]; simpl; [reflexivity|].
  intros H. apply andb_true_iff in H as [Hc Hr].
  destruct (Ascii.eqb c "?"); [discriminate|]. auto.
Qed.

Lemma noQuestionMark_join (l : list string) :
  forallb noQuestionMark l = true -> noQuestionMark (Js.join "/" l) = true.
Proof.
  induction l as [|x l IH]; [reflexivity|].
  intros H. simpl in H. apply andb_true_iff in H as [Hx Hl].
  destruct l as [|y l]; [exact Hx|].
  rewrite join_cons by discriminate.
  rewrite !noQuestionMark_app, Hx, IH by exact Hl. reflexivity.
Qed.

Lemma queryOf_join_app (stack parts : list string) :
  forallb noQuestionMark stack = true ->
  parts <> [] ->
  queryOf (Js.join "/" (stack ++ parts)) = queryOf (Js.join "/" parts).
Proof.
  intros Hs Hp. induction stack as [|x stack IH]; [reflexivity|].
  simpl in Hs. apply andb_true_iff in Hs as [Hx Hs].
  change ((x :: stack) ++ parts)%list with (x :: (stack ++ parts)%list).
  rewrite join_cons by (destruct stack; [exact Hp|discriminate]).
  rewrite queryOf_app by exact Hx.
  rewrite queryOf_app by reflexivity. auto.
Qed.

Lemma forallb_pop {A} (f : A -> bool) (l : list A) :
  forallb f l = true -> forallb f (Js.pop l) = true.
Proof.
  unfold Js.pop. induction l as [|x l IH]; [reflexivity|].
  intros H. simpl in H. apply andb_true_iff in H as [Hx Hl].
  destruct l as [|y l]; [reflexivity|].
  change (removelast (x :: y :: l)) with (x :: removelast (y :: l)).
  simpl forallb at 1. rewrite Hx. exact (IH Hl).
Qed.

Lemma forallb_push {A} (f : A -> bool) (l : list A) (x : A) :
  forallb f l = true -> f x = true -> forallb f (Js.push l x) = true.
Proof.
  intros Hl Hx. unfold Js.push. rewrite forallb_app, Hl. simpl. rewrite Hx. reflexivity.
Qed.

Lemma noQuestionMark_split (s : string) :
  noQuestionMark s = true -> forallb noQuestionMark (Js.split "/" s) = true.
Proof.
  induction s as [|c r IH]; [reflexivity|].
  intros H. simpl in H. apply andb_true_iff in H as [Hc Hr].
  specialize (IH Hr). simpl.
  destruct (Ascii.eqb c "/"); [exact IH|].
  destruct (Js.split "/" r) as [|x xs]; simpl in *.
  - rewrite Hc. reflexivity.
  - apply andb_true_iff in IH as [Hx Hxs]. rewrite Hc, Hx, Hxs. reflexivity.
Qed.

Lemma fixRelativeUrl_loop_plain (parts stack : list string) :
  forallb (fun q => negb (isDotSegment q)) parts = true ->
  fixRelativeUrl_loop parts stack = (stack ++ parts)%list.
Proof.
  revert stack. induction parts as [|p rest IH]; intros stack H.
  - symmetry. apply app_nil_r.
  - simpl in H. apply andb_true_iff in H as [Hp Hrest].
    unfold isDotSegment in Hp. apply negb_true_iff, orb_false_iff in Hp as [H1 H2].
    simpl. rewrite H1, H2, IH by exact Hrest.
    unfold Js.push. rewrite <- app_assoc. reflexivity.
Qed.

Lemma isDotSegment_noQuestionMark (p : string) :
  noQuestionMark p = false -> isDotSegment p = false.
Proof.
  intros H. unfold isDotSegment.
  destruct (String.eqb_spec p ".") as [->|_]; [discriminate H|].
  destruct (String.eqb_spec p "..") as [->|_]; [discriminate H|]. reflexivity.
Qed.

(** The loop leaves the query string of the target as it is when no [.] or
    [..] follows the first [?]. *)
Lemma fixRelativeUrl_loop_query (parts stack : list string) :
  forallb noQuestionMark stack = true ->
  queryFreeOfDots parts = true ->
  queryOf (Js.join "/" (fixRelativeUrl_loop parts stack)) = queryOf (Js.join "/" parts).
Proof.
  revert stack. induction parts as [|p rest IH]; intros stack Hs Hq.
  - simpl. apply queryOf_none, noQuestionMark_join, Hs.
  - simpl in Hq. destruct (noQuestionMark p) eqn:Hp.
    + assert (Hrhs : queryOf (Js.join "/" (p :: rest)) = queryOf (Js.join "/" rest)).
      { destruct rest as [|q rest]; [apply queryOf_none, Hp|].
        rewrite join_cons by discriminate.
        rewrite queryOf_app by exact Hp. apply queryOf_app. reflexivity. }
      rewrite Hrhs. simpl.
      destruct (String.eqb p "."); [apply IH; assumption|].
      destruct (String.eqb p "..").
      * apply IH; [apply forallb_pop, Hs|exact Hq].
      * apply IH; [apply forallb_push; assumption|exact Hq].
    + pose proof (isDotSegment_noQuestionMark p Hp) as Hd.
      assert (Hall : forallb (fun q => negb (isDotSegment q)) (p :: rest) = true).
      { simpl. rewrite Hd, Hq. reflexivity. }
      rewrite fixRelativeUrl_loop_plain by exact Hall.
      apply queryOf_join_app; [exact Hs|discriminate].
Qed.

Lemma prefix_slice (p u : string) :
  String.prefix p u = true -> u = p ++ Js.slice (String.length p) u.
Proof.
  revert u. induction p as [|c p IH]; intros u H; [reflexivity|].
  destruct u as [|d u]; [discriminate H|].
  simpl in H. destruct (Ascii.ascii_dec c d) as [->|]; [|discriminate H].
  simpl. f_equal. apply IH, H.
Qed.

Lemma queryOf_stripCanaryPrefix (u : string) :
  queryOf (stripCanaryPrefix u) = queryOf u.
Proof.
  unfold stripCanaryPrefix, Js.startsWith.
  destruct (String.prefix (SUBPACKAGES_ROOT ++ "/") u) eqn:E; [|reflexivity].
  apply prefix_slice in E. rewrite E at 2.
  symmetry. apply queryOf_app. reflexivity.
Qed.

Lemma fixRelativeUrl_query (source target : string) :
  queryKept source target = true ->
  queryOf (fixRelativeUrl source target) = queryOf target.
Proof.
  unfold queryKept. intros H.
  destruct (Js.startsWith target "/") eqn:E.
  - rewrite startsWith_slash in E. destruct target as [|c r]; [discriminate|].
    destruct c as [[] [] [] [] [] [] [] []]; try discriminate E.
    rewrite fixRelativeUrl_absolute. reflexivity.
  - apply andb_true_iff in H as [Hs Hq].
    rewrite (fixRelativeUrl_relative _ _ E).
    rewrite fixRelativeUrl_loop_query; [rewrite join_split; reflexivity| |exact Hq].
    apply forallb_pop, noQuestionMark_split, Hs.
Qed.

(** ** Navigation interceptor *)

Lemma length_append (a b : string) :
  String.length (a ++ b) = String.length a + String.length b.
Proof. induction a as [|c a IH]; simpl; [reflexivity|]. rewrite IH. reflexivity. Qed.

Lemma withCanaryPrefix_differs (path : string) : withCanaryPrefix path <> path.
Proof.
  intros H. apply (f_equal String.length) in H.
  unfold withCanaryPrefix in H. rewrite !length_append in H. simpl in H. lia.
Qed.

Section InterceptorProperties.

Variable GRAY_PAGES : list string.

Lemma routeApiProxy_run (wxRouteApi : RouteObject -> M unit) (object : RouteObject)
    (w : World) (source : string) :
  Js.orFalse (notProxy object) = false ->
  Js.lastOf (pageStack w) = Some source ->
  let path := stripCanaryPrefix (fixRelativeUrl source (url object)) in
  let gray := matchesPages GRAY_PAGES path && previousDecision w in
  routeApiProxy GRAY_PAGES wxRouteApi object w =
  (isGrayVersionSync ;;;
   wxRouteApi (withUrl object (if gray then "/" ++ withCanaryPrefix path else "/" ++ path))) w.
Proof.
  intros Hmark Hpage. destruct w as [open st stack query layers srv].
  cbn [pageStack] in Hpage.
  unfold routeApiProxy, previousDecision, matchesPages. rewrite Hmark.
  run_host. rewrite Hpage.
  destruct (wxRouteApi _ _) as [[r w1] t]. destruct r; reflexivity.
Qed.

Lemma stripCanaryPrefix_cases (resolved : string) :
  (Js.startsWith resolved "grayVersion/" = true ->
   resolved = "grayVersion/" ++ stripCanaryPrefix resolved)
  /\ (Js.startsWith resolved "grayVersion/" = false ->
      stripCanaryPrefix resolved = resolved).
Proof.
  unfold stripCanaryPrefix.
  change (SUBPACKAGES_ROOT ++ "/") with "grayVersion/". split; intros H; rewrite H.
  - apply (prefix_slice "grayVersion/" resolved). exact H.
  - reflexivity.
Qed.

Lemma startsWith_under_prefix (path : string) :
  Js.startsWith ("/grayVersion/" ++ path) "/grayVersion/" = true.
Proof. unfold Js.startsWith. simpl. apply prefix_empty. Qed.

Lemma startsWith_after_separator (path : string) :
  Js.startsWith ("/" ++ path) "/grayVersion/" = Js.startsWith path "grayVersion/".
Proof. unfold Js.startsWith. destruct path; reflexivity. Qed.

(** C4, amended. Each of the three operations of a replaced [wx] hands a call
    that carries the marker to the operation below, unchanged. For a call
    without the marker, made while a current page exists, it reads the
    persisted decision and hands over the same object with a new [url], built
    from the target resolved against the route of the current page: when the
    resolved target starts with [grayVersion/] that prefix is taken off once,
    otherwise the resolved target is kept; the url is the stripped path after
    [/grayVersion/] when the stripped path matches the canary pages and the
    decision is gray, and after [/] otherwise. For a stripped path that does
    not itself start with the prefix, the url starts with [/grayVersion/]
    exactly when the path matches and the decision is gray. The other
    properties of the call are kept. The query string is kept for a target
    that is absolute, or whose query holds no segment [.] or [..] (the route
    having no [?]). *)
Theorem routeApiProxy_rewrites :
  forall (layers : nat) (api : RouteApi) (object : RouteObject) (w : World),
    (Js.orFalse (notProxy object) = true ->
     wxProxy GRAY_PAGES (S layers) api object w
     = wxProxy GRAY_PAGES layers api object w)
    /\ (forall source : string,
          Js.orFalse (notProxy object) = false ->
          Js.lastOf (pageStack w) = Some source ->
          let resolved := fixRelativeUrl source (url object) in
          let path := stripCanaryPrefix resolved in
          let gray := matchesPages GRAY_PAGES path && previousDecision w in
          let delegated :=
            withUrl object (if gray then "/" ++ withCanaryPrefix path else "/" ++ path) in
          wxProxy GRAY_PAGES (S layers) api object w
          = (isGrayVersionSync ;;; wxProxy GRAY_PAGES layers api delegated) w
          /\ (Js.startsWith resolved "grayVersion/" = true ->
              resolved = "grayVersion/" ++ path)
          /\ (Js.startsWith resolved "grayVersion/" = false -> path = resolved)
          /\ url delegated = "/" ++ (if gray then "grayVersion/" else "") ++ path
          /\ (Js.startsWith path "grayVersion/" = false ->
              (Js.startsWith (url delegated) "/grayVersion/" = true <-> gray = true))
          /\ notProxy delegated = notProxy object
          /\ others delegated = others object
          /\ (queryKept source (url object) = true ->
              queryOf (url delegated) = queryOf (url object))).
Proof.
  intros layers api object w. split.
  - intros Hmark.
    destruct api; simpl;
      unfold navigateToProxy, redirectToProxy, reLaunchProxy, routeApiProxy;
      rewrite Hmark; reflexivity.
  - intros source Hmark Hpage resolved path gray delegated.
    assert (Hurl : url delegated = "/" ++ (if gray then "grayVersion/" else "") ++ path).
    { subst delegated. cbn [withUrl url]. destruct gray; reflexivity. }
    split; [|split; [|split; [|split; [|split; [|split; [|split]]]]]].
    + destruct api; simpl;
        unfold navigateToProxy, redirectToProxy, reLaunchProxy;
        apply routeApiProxy_run; assumption.
    + apply (proj1 (stripCanaryPrefix_cases resolved)).
    + apply (proj2 (stripCanaryPrefix_cases resolved)).
    + exact Hurl.
    + intros Hplain. rewrite Hurl. destruct gray.
      * change ("/" ++ "grayVersion/" ++ path) with ("/grayVersion/" ++ path).
        rewrite startsWith_under_prefix. split; reflexivity.
      * change ("/" ++ "" ++ path) with ("/" ++ path).
        rewrite startsWith_after_separator, Hplain. split; intros H; discriminate H.
    + reflexivity.
    + reflexivity.
    + intros Hq. subst delegated. cbn [withUrl url].
      rewrite <- (fixRelativeUrl_query _ _ Hq).
      rewrite <- (queryOf_stripCanaryPrefix (fixRelativeUrl source (url object))).
      fold resolved. fold path. destruct gray; reflexivity.
Qed.

End InterceptorProperties.

(** ** Rule source *)

Lemma fetch_outcomes (o : FetchOutcome) :
  (exists d, fetchSucceeds o d) \/ fetchOtherStatus o \/ fetchTransportFailure o.
Proof.
  destruct o as [|[[|code d]|]].
  - right; right. left. reflexivity.
  - right; right. right; right. reflexivity.
  - destruct (isSuccessCode code) eqn:E.
    + left. exists d, code. split; [reflexivity|exact E].
    + right; left. exists code, d. split; [reflexivity|exact E].
  - right; right. right; left. reflexivity.
Qed.

Lemma getGrayVersionRule_test (w : World) :
  testOverride w = true ->
  getGrayVersionRule w = (Ret (Resolved (Some (storedRule (storage w)))), w, [EvGetStorage]).
Proof.
  unfold testOverride. intros H. destruct w as [open st stack query layers srv].
  cbn [storage] in *. unfold getGrayVersionRule, getGrayVersionRule_executor.
  run_host. rewrite H. reflexivity.
Qed.

Lemma getGrayVersionRule_success (w : World) (d : option GrayRule.t) :
  testOverride w = false ->
  fetchSucceeds (server w) d ->
  getGrayVersionRule w =
  (Ret (Resolved d),
   mkWorld (isGrayVersionOpen w) d (pageStack w) (enterQuery w) (wxLayers w) (server w),
   [EvGetStorage; EvFetch; EvSetStorage d]).
Proof.
  unfold testOverride. intros H (code & Hs & Hc).
  destruct w as [open st stack query layers srv].
  cbn [storage server] in *. subst srv.
  unfold getGrayVersionRule, getGrayVersionRule_executor.
  run_host. rewrite H. run_host. rewrite Hc. reflexivity.
Qed.

Lemma getGrayVersionRule_other_status (w : World) :
  testOverride w = false ->
  fetchOtherStatus (server w) ->
  getGrayVersionRule w = (Ret (Resolved (Some GrayRule.closed)), w, [EvGetStorage; EvFetch]).
Proof.
  unfold testOverride. intros H (code & d & Hs & Hc).
  destruct w as [open st stack query layers srv].
  cbn [storage server] in *. subst srv.
  unfold getGrayVersionRule, getGrayVersionRule_executor.
  run_host. rewrite H. run_host. rewrite Hc. reflexivity.
Qed.

Lemma getGrayVersionRule_transport_failure (w : World) :
  testOverride w = false ->
  fetchTransportFailure (server w) ->
  getGrayVersionRule w =
  (Ret (Resolved (Some GrayRule.closed)), w, [EvGetStorage; EvFetch; EvConsoleError]).
Proof.
  unfold testOverride. intros H Hs.
  destruct w as [open st stack query layers srv].
  cbn [storage server] in *.
  unfold getGrayVersionRule, getGrayVersionRule_executor.
  run_host. rewrite H.
  destruct Hs as [-> | [-> | ->]]; reflexivity.
Qed.


(** C10. When the fetch of [getGrayVersionRule] fails (another code, or a
    transport failure), the stored record is the one found, no write is
    recorded, and the caller gets [{isOpen: false}]; on success the fetched
    rule is written; and a write is recorded only on a successful fetch, of the
    fetched rule. *)
Theorem getGrayVersionRule_failure_keeps_storage :
  forall w : World,
    let out := getGrayVersionRule w in
    (testOverride w = false ->
     fetchOtherStatus (server w) \/ fetchTransportFailure (server w) ->
     storage (worldOf out) = storage w
     /\ (forall v, ~ In (EvSetStorage v) (traceOf out))
     /\ resultOf out = Ret (Resolved (Some GrayRule.closed)))
    /\ (forall d : option GrayRule.t,
          testOverride w = false ->
          fetchSucceeds (server w) d ->
          storage (worldOf out) = d /\ In (EvSetStorage d) (traceOf out))
    /\ (forall v : option GrayRule.t,
          In (EvSetStorage v) (traceOf out) ->
          testOverride w = false /\ fetchSucceeds (server w) v).
Proof.
  intros w out. subst out. split; [|split].
  - intros Ht [Hs | Hs];
      [rewrite (getGrayVersionRule_other_status w Ht Hs)
      |rewrite (getGrayVersionRule_transport_failure w Ht Hs)];
      (split; [reflexivity|split; [|reflexivity]]);
      intros v Hin; cbn [traceOf snd In] in Hin;
      repeat (destruct Hin as [Hin|Hin]; [discriminate Hin|]); exact Hin.
  - intros d Ht Hs. rewrite (getGrayVersionRule_success w d Ht Hs).
    split; [reflexivity|]. cbn [traceOf snd In]. auto.
  - intros v Hin. destruct (testOverride w) eqn:Ht.
    + rewrite (getGrayVersionRule_test w Ht) in Hin. cbn [traceOf snd In] in Hin.
      destruct Hin as [Hin|[]]. discriminate Hin.
    + split; [reflexivity|].
      destruct (fetch_outcomes (server w)) as [[d Hs] | [Hs | Hs]].
      * rewrite (getGrayVersionRule_success w d Ht Hs) in Hin.
        cbn [traceOf snd In] in Hin.
        destruct Hin as [Hin|[Hin|[Hin|[]]]]; try discriminate Hin.
        injection Hin as <-. exact Hs.
      * rewrite (getGrayVersionRule_other_status w Ht Hs) in Hin.
        cbn [traceOf snd In] in Hin.
        destruct Hin as [Hin|[Hin|[]]]; discriminate Hin.
      * rewrite (getGrayVersionRule_transport_failure w Ht Hs) in Hin.
        cbn [traceOf snd In] in Hin.
        destruct Hin as [Hin|[Hin|[Hin|[]]]]; discriminate Hin.
Qed.

(** ** Redirect trigger: the policy *)

Lemma append_assoc (a b c : string) : (a ++ b) ++ c = a ++ (b ++ c).
Proof. induction a as [|x a IH]; simpl; [reflexivity|]. rewrite IH. reflexivity. Qed.

Lemma prefix_app_l (a b u : string) :
  String.prefix (a ++ b) u = true -> String.prefix a u = true.
Proof.
  revert u. induction a as [|c a IH]; intros u H; [apply prefix_empty|].
  destruct u as [|d u]; [discriminate H|].
  simpl in *. destruct (Ascii.ascii_dec c d); [apply IH, H|discriminate H].
Qed.





Section RedirectPolicy.

Variable GRAY_PAGES : list string.


End RedirectPolicy.

(** * Concrete runs *)

(** A rule that is closed, with every other criterion set to match. *)
Lemma checkIsGrayVersionTargetUser_not_open_witness :
  let rule := GrayRule.mk (Some false) (Some ["all"; "11"]) (Some "138")
                (Some ["13800138000"]) (Some true) None None in
  let user := Some (UserInfo.mk (Some "110105") (Some "13800138000")) in
  (GrayRule.isOpen rule = Some false \/ GrayRule.isOpen rule = None)
  /\ checkIsGrayVersionTargetUser rule user = false.
Proof.
  split.
  - left. reflexivity.
  - apply checkIsGrayVersionTargetUser_not_open. left. reflexivity.
Defined.

(** The rule of C8 once opened, on a user without attributes. *)
Lemma checkIsGrayVersionTargetUser_sentinel_first_witness :
  let rule := GrayRule.mk (Some true) (Some ["all"; "110000"]) None None None None None in
  checkIsGrayVersionTargetUser rule None = true
  /\ checkIsGrayVersionTargetUser rule (Some (UserInfo.mk None None)) = true.
Proof.
  split.
  - apply (checkIsGrayVersionTargetUser_sentinel_first
             (GrayRule.mk (Some true) (Some ["all"; "110000"]) None None None None None)
             ["110000"] None); reflexivity.
  - apply (checkIsGrayVersionTargetUser_sentinel_first
             (GrayRule.mk (Some true) (Some ["all"; "110000"]) None None None None None)
             ["110000"] (Some (UserInfo.mk None None))); reflexivity.
Defined.

Lemma canary_prefix_round_trip_witness :
  Js.startsWith "pages/a/index" (SUBPACKAGES_ROOT ++ "/") = false
  /\ stripCanaryPrefix "pages/a/index" = "pages/a/index".
Proof.
  split.
  - reflexivity.
  - apply (proj2 (proj2 canary_prefix_round_trip)). reflexivity.
Defined.



Lemma redirectToGrayPage_persists_before_navigating_witness :
  let w := mkWorld true
             (Some (GrayRule.mk (Some true) None None None (Some true) None (Some false)))
             ["pages/a/index"] [] 1 FetchFails in
  let params := mkParams (Some ["pages/a"]) None in
  let record := GrayRule.mk (Some true) None None None (Some true) None (Some true) in
  let before := [EvGetStorage; EvGetStorage; EvSetStorage (Some record);
                 EvGetEnterOptions] in
  traceOf (redirectToGrayPage [] params w)
  = (before
     ++ [EvRoute RedirectTo (mkRouteObject "/grayVersion/pages/a/index" (Some true) [])])%list
  /\ In (EvSetStorage (Some record)) before
  /\ navigations before = []
  /\ storage (worldOf (redirectToGrayPage [] params w)) = Some record
  /\ resultOf (isGrayVersionSync (worldOf (redirectToGrayPage [] params w))) = Ret true.
Proof.
  intros w params record before.
  destruct (redirectToGrayPage_persists_before_navigating [] params w before []
              RedirectTo (mkRouteObject "/grayVersion/pages/a/index" (Some true) [])
              eq_refl) as (Hin & Hnav & _ & Hst & Hread).
  split; [reflexivity|split; [exact Hin|split; [exact Hnav|split; [exact Hst|exact Hread]]]].
Defined.

(** The scenarios of the specification: with a gray decision, an eligible
    target given relative to the current page, with a query string and a
    callback, goes under the prefix; with a decision that is not gray, a target
    given under the prefix has the prefix taken off and not put back; and a
    call with the marker passes as it is. *)
Lemma routeApiProxy_rewrites_witness :
  let gray := mkWorld true
                (Some (GrayRule.mk (Some true) None None None (Some true) None (Some true)))
                ["pages/a/index"] [] 1 FetchFails in
  let plain := mkWorld true
                 (Some (GrayRule.mk (Some true) None None None None None (Some false)))
                 ["pages/a/index"] [] 1 FetchFails in
  let object := mkRouteObject "../b/index?id=1" None [("success", "onDone")] in
  let prefixed := mkRouteObject "/grayVersion/pages/b/index?id=1" None [] in
  let marked := mkRouteObject "/pages/b/index?id=1" (Some true) [] in
  wxProxy ["pages/b"] 1 NavigateTo object gray
  = (Ret tt, gray,
     [EvGetStorage;
      EvRoute NavigateTo
        (mkRouteObject "/grayVersion/pages/b/index?id=1" None [("success", "onDone")])])
  /\ queryOf "/grayVersion/pages/b/index?id=1" = queryOf (url object)
  /\ wxProxy ["pages/b"] 1 RedirectTo prefixed plain
     = (Ret tt, plain,
        [EvGetStorage; EvRoute RedirectTo (mkRouteObject "/pages/b/index?id=1" None [])])
  /\ "grayVersion/pages/b/index?id=1" = "grayVersion/" ++ "pages/b/index?id=1"
  /\ (Js.startsWith "/pages/b/index?id=1" "/grayVersion/" = true <-> false = true)
  /\ wxProxy ["pages/b"] 1 NavigateTo marked gray
     = (Ret tt, gray, [EvRoute NavigateTo marked]).
Proof.
  intros gray plain object prefixed marked.
  destruct (routeApiProxy_rewrites ["pages/b"] 0 NavigateTo object gray) as [_ Hobject].
  destruct (Hobject "pages/a/index" eq_refl eq_refl)
    as (Hrun & _ & _ & _ & _ & _ & _ & Hquery).
  destruct (routeApiProxy_rewrites ["pages/b"] 0 RedirectTo prefixed plain)
    as [_ Hprefixed].
  destruct (Hprefixed "pages/a/index" eq_refl eq_refl)
    as (Hrun2 & Hstrip & _ & _ & Hiff & _).
  destruct (routeApiProxy_rewrites ["pages/b"] 0 NavigateTo marked gray) as [Hmarked _].
  split; [exact Hrun|]. split; [exact (Hquery eq_refl)|].
  split; [exact Hrun2|]. split; [exact (Hstrip eq_refl)|].
  split; [exact (Hiff eq_refl)|exact (Hmarked eq_refl)].
Defined.

(** C4, as stated, fails in two ways. On a relative target whose query holds
    a segment [..] the query string is lost: from [pages/a/index], the target
    [detail?back=x/../y] is delegated as [/pages/a/y]. On a target that
    carries the prefix twice the delegated url carries the prefix although the
    decision is not gray: [/grayVersion/grayVersion/pages/a/index] is
    delegated as [/grayVersion/pages/a/index]. *)
Lemma routeApiProxy_counterexample :
  ~ keepsQueryString ["pages/a"] NavigateTo
      (mkRouteObject "detail?back=x/../y" None [])
      (mkWorld true None ["pages/a/index"] [] 1 FetchFails)
  /\ ~ prefixOnlyWhenGray ["pages/a"] NavigateTo
        (mkRouteObject "/grayVersion/grayVersion/pages/a/index" None [])
        (mkWorld true None ["pages/a/index"] [] 1 FetchFails).
Proof.
  split.
  - unfold keepsQueryString. intros H.
    specialize (H (mkRouteObject "/pages/a/y" None [])).
    assert (Hin : In (EvRoute NavigateTo (mkRouteObject "/pages/a/y" None []))
                    (traceOf (wxProxy ["pages/a"] 1 NavigateTo
                                (mkRouteObject "detail?back=x/../y" None [])
                                (mkWorld true None ["pages/a/index"] [] 1 FetchFails)))).
    { vm_compute. right. left. reflexivity. }
    specialize (H Hin). vm_compute in H. discriminate H.
  - unfold prefixOnlyWhenGray. intros H.
    specialize (H (mkRouteObject "/grayVersion/pages/a/index" None [])).
    assert (Hin : In (EvRoute NavigateTo
                        (mkRouteObject "/grayVersion/pages/a/index" None []))
                    (traceOf (wxProxy ["pages/a"] 1 NavigateTo
                                (mkRouteObject "/grayVersion/grayVersion/pages/a/index"
                                   None [])
                                (mkWorld true None ["pages/a/index"] [] 1 FetchFails)))).
    { vm_compute. right. left. reflexivity. }
    specialize (H Hin eq_refl). vm_compute in H. discriminate H.
Qed.


(** A connection that fails, over a stored record; and a reply with the code
    200. *)
Lemma getGrayVersionRule_failure_keeps_storage_witness :
  let stored := Some (GrayRule.mk (Some true) None None None (Some true) None (Some true)) in
  let fetched := Some (GrayRule.mk (Some true) (Some ["11"]) None None None None None) in
  let wFail := mkWorld true stored ["pages/a/index"] [] 1 FetchFails in
  let w200 := mkWorld true stored ["pages/a/index"] [] 1
                (FetchReplies (Some (JObject (Some 200%Z) fetched))) in
  (storage (worldOf (getGrayVersionRule wFail)) = stored
   /\ (forall v, ~ In (EvSetStorage v) (traceOf (getGrayVersionRule wFail)))
   /\ resultOf (getGrayVersionRule wFail) = Ret (Resolved (Some GrayRule.closed)))
  /\ (storage (worldOf (getGrayVersionRule w200)) = fetched
      /\ In (EvSetStorage fetched) (traceOf (getGrayVersionRule w200))).
Proof.
  intros stored fetched wFail w200. split.
  - refine (proj1 (getGrayVersionRule_failure_keeps_storage wFail) eq_refl _).
    right. left. reflexivity.
  - refine (proj1 (proj2 (getGrayVersionRule_failure_keeps_storage w200)) fetched eq_refl _).
    exists (Some 200%Z). split; reflexivity.
Defined.

(** ** The scenarios of the specification, run from start-up *)

(** Start-up in test mode with a rule open to all, a synchronous refresh of the
    decision for a user without attributes, then a forward navigation to an
    eligible page: the call reaches the platform under the canary prefix. *)
Example startup_then_navigate :
  let rule := GrayRule.mk (Some true) None None None (Some true) (Some true) None in
  let w0 := mkWorld false None ["pages/index/index"] [] 0 FetchFails in
  let run :=
    (enableGrayVersion (Some rule) ;;;
     setGrayVersionStorageSync None ;;;
     wx_route ["pages/b"] NavigateTo (mkRouteObject "../b/index?id=1" None [])) in
  navigations (traceOf (run w0))
  = [(NavigateTo, mkRouteObject "/grayVersion/pages/b/index?id=1" None [])]
  /\ previousDecision (worldOf (run w0)) = true.
Proof. split; reflexivity. Qed.

(** The examples of the rule evaluator: a prefix match of the area code. *)
Example area_code_prefix :
  let rule := GrayRule.mk (Some true) (Some ["11"]) None None None None None in
  checkIsGrayVersionTargetUser rule (Some (UserInfo.mk (Some "110105") None)) = true
  /\ checkIsGrayVersionTargetUser rule (Some (UserInfo.mk (Some "220000") None)) = false.
Proof. split; reflexivity. Qed.

(** * Further properties of the gray-release module *)

(** ** Start-up and the decision store *)

(** X1. [enableGrayVersion] leaves no earlier record behind: whatever the
    storage held, afterwards it holds the rule passed in when that rule is
    open and marked as a test rule, and nothing otherwise; the toggle is the
    rule's [isOpen]; [wx] is replaced once exactly when the rule is open. So
    the decision read after start-up is [false] unless an open test rule
    brings its own. *)
Theorem enableGrayVersion_startup :
  forall (grayRule : option GrayRule.t) (w : World),
    let rule := Js.withDefault GrayRule.empty grayRule in
    let open := Js.orFalse (GrayRule.isOpen rule) in
    let test := open && Js.orFalse (GrayRule.isTest rule) in
    let out := enableGrayVersion grayRule w in
    resultOf out = Ret tt
    /\ isGrayVersionOpen (worldOf out) = open
    /\ storage (worldOf out) = (if test then Some rule else None)
    /\ wxLayers (worldOf out) = (if open then S (wxLayers w) else wxLayers w)
    /\ resultOf (isGrayVersionSync (worldOf out))
       = Ret (test && Js.orFalse (GrayRule.isGrayVersion rule))
    /\ pageStack (worldOf out) = pageStack w.
Proof.
  intros grayRule w rule open test out. subst out test open.
  destruct w as [o st stack query layers srv].
  unfold enableGrayVersion. fold rule.
  destruct (Js.orFalse (GrayRule.isOpen rule)) eqn:Hopen; run_host.
  - destruct (Js.orFalse (GrayRule.isTest rule)) eqn:Htest; run_host;
      repeat split; reflexivity.
  - repeat split; reflexivity.
Qed.

Lemma setGrayVersionStorageSync_run (user : option UserInfo.t) (w : World) :
  setGrayVersionStorageSync user w =
  if isGrayVersionOpen w then
    (Ret tt,
     mkWorld true (Some (freshRecord w user)) (pageStack w) (enterQuery w)
             (wxLayers w) (server w),
     [EvGetStorage; EvSetStorage (Some (freshRecord w user))])
  else (Ret tt, w, []).
Proof.
  destruct w as [o st stack query layers srv].
  unfold setGrayVersionStorageSync, freshRecord, freshVerdict. run_host.
  destruct o; reflexivity.
Qed.

Lemma setGrayVersionStorage_off (user : option UserInfo.t) (w : World) :
  isGrayVersionOpen w = false ->
  setGrayVersionStorage user w = (Ret (Resolved tt), w, []).
Proof.
  intros H. destruct w as [o st stack query layers srv]. cbn [isGrayVersionOpen] in H.
  subst o. reflexivity.
Qed.

(** What [setGrayVersionStorage] does once [getGrayVersionRule] has resolved
    to the rule [r] in the world [w1] with the calls [t]. *)
Lemma setGrayVersionStorage_resolved (user : option UserInfo.t) (w w1 : World)
    (r : GrayRule.t) (t : list Event) :
  isGrayVersionOpen w = true ->
  getGrayVersionRule w = (Ret (Resolved (Some r)), w1, t) ->
  let record := GrayRule.assignDecision r (checkIsGrayVersionTargetUser r user) in
  setGrayVersionStorage user w =
  (Ret (Resolved tt),
   mkWorld (isGrayVersionOpen w1) (Some record) (pageStack w1) (enterQuery w1)
           (wxLayers w1) (server w1),
   (t ++ [EvSetStorage (Some record)])%list).
Proof.
  intros Hopen Hrule record. subst record.
  unfold setGrayVersionStorage, bind at 1, readToggle. rewrite Hopen. cbn [negb].
  unfold bind at 1. rewrite Hrule.
  unfold bind, wx_setStorageSync, ret. cbn [app]. reflexivity.
Qed.

Section StoreProperties.

Variable GRAY_PAGES : list string.

(** X2. While the toggle is off the three entry points do nothing: each
    returns at once, the world is the one it found, and no call on the host is
    recorded, neither a read of the storage, nor a fetch, nor a navigation. *)
Theorem entry_points_inert_when_off :
  forall (params : RedirectToGrayPageParams) (user : option UserInfo.t) (w : World),
    isGrayVersionOpen w = false ->
    redirectToGrayPage GRAY_PAGES params w = (Ret false, w, [])
    /\ setGrayVersionStorageSync user w = (Ret tt, w, [])
    /\ setGrayVersionStorage user w = (Ret (Resolved tt), w, []).
Proof.
  intros params user w Hoff. split; [|split].
  - rewrite redirectToGrayPage_run, Hoff. reflexivity.
  - rewrite setGrayVersionStorageSync_run, Hoff. reflexivity.
  - apply setGrayVersionStorage_off, Hoff.
Qed.

(** X9. While the toggle is on, [redirectToGrayPage] persists the fresh
    decision on every run, also when the page is not eligible or the decision
    did not change: the record written keeps the fields of the stored rule,
    the decision read next is the fresh verdict, and the verdict of the stored
    rule on the same user is unchanged. *)
Theorem redirectToGrayPage_always_persists :
  forall (params : RedirectToGrayPageParams) (w : World),
    isGrayVersionOpen w = true ->
    let out := redirectToGrayPage GRAY_PAGES params w in
    let user := userInfo params in
    storage (worldOf out) = Some (freshRecord w user)
    /\ In (EvSetStorage (Some (freshRecord w user))) (traceOf out)
    /\ resultOf (isGrayVersionSync (worldOf out)) = Ret (freshVerdict w user)
    /\ freshVerdict (worldOf out) user = freshVerdict w user.
Proof.
  intros params w Hopen out user. subst out.
  rewrite redirectToGrayPage_run, Hopen. cbn [negb]. fold user.
  destruct (negb (matchesPages _ (currentRoute w)));
    [|destruct (negb (Bool.eqb _ (previousDecision w)))];
    (split; [reflexivity|split; [cbn [traceOf snd In]; auto|split; reflexivity]]).
Qed.

End StoreProperties.

(** X3. While the toggle is on, [setGrayVersionStorageSync] writes the stored
    rule with the verdict as its decision; [isGrayVersionSync] then returns
    that verdict; and a second call for the same user leaves the world as the
    first one made it. *)
Theorem setGrayVersionStorageSync_persists :
  forall (user : option UserInfo.t) (w : World),
    isGrayVersionOpen w = true ->
    let w1 := worldOf (setGrayVersionStorageSync user w) in
    storage w1 = Some (freshRecord w user)
    /\ resultOf (isGrayVersionSync w1) = Ret (freshVerdict w user)
    /\ worldOf (setGrayVersionStorageSync user w1) = w1.
Proof.
  intros user w Hopen w1. subst w1.
  rewrite setGrayVersionStorageSync_run, Hopen. cbn [worldOf fst snd].
  split; [reflexivity|split; [reflexivity|]].
  rewrite setGrayVersionStorageSync_run. reflexivity.
Qed.

(** X4. While the toggle is on and outside test mode, a fetch that fails makes
    [setGrayVersionStorage] replace whatever rule was stored by the closed
    record with the decision [false], for every user; its promise is resolved. *)
Theorem setGrayVersionStorage_failure_closes :
  forall (user : option UserInfo.t) (w : World),
    isGrayVersionOpen w = true ->
    testOverride w = false ->
    fetchOtherStatus (server w) \/ fetchTransportFailure (server w) ->
    let out := setGrayVersionStorage user w in
    resultOf out = Ret (Resolved tt)
    /\ storage (worldOf out) = Some (GrayRule.assignDecision GrayRule.closed false)
    /\ resultOf (isGrayVersionSync (worldOf out)) = Ret false
    /\ forall other : option UserInfo.t, freshVerdict (worldOf out) other = false.
Proof.
  intros user w Hopen Ht Hfail out. subst out.
  destruct Hfail as [Hs | Hs].
  - rewrite (setGrayVersionStorage_resolved user w _ _ _ Hopen
               (getGrayVersionRule_other_status w Ht Hs)).
    repeat split; reflexivity.
  - rewrite (setGrayVersionStorage_resolved user w _ _ _ Hopen
               (getGrayVersionRule_transport_failure w Ht Hs)).
    repeat split; reflexivity.
Qed.

(** X5. While the toggle is on and outside test mode, a fetch that succeeds
    with a rule as its [data] makes [setGrayVersionStorage] write twice: the
    fetched rule, then the fetched rule with the verdict it gives on the user
    as its decision, which is what the storage holds in the end. *)
Theorem setGrayVersionStorage_success_persists :
  forall (user : option UserInfo.t) (w : World) (fetched : GrayRule.t),
    isGrayVersionOpen w = true ->
    testOverride w = false ->
    fetchSucceeds (server w) (Some fetched) ->
    let out := setGrayVersionStorage user w in
    let verdict := checkIsGrayVersionTargetUser fetched user in
    let record :=
      GrayRule.mk (GrayRule.isOpen fetched) (GrayRule.areaCode fetched)
        (GrayRule.phonePrefix fetched) (GrayRule.whiteList fetched)
        (GrayRule.all fetched) (GrayRule.isTest fetched) (Some verdict) in
    resultOf out = Ret (Resolved tt)
    /\ storage (worldOf out) = Some record
    /\ traceOf out
       = [EvGetStorage; EvFetch; EvSetStorage (Some fetched); EvSetStorage (Some record)]
    /\ resultOf (isGrayVersionSync (worldOf out)) = Ret verdict.
Proof.
  intros user w fetched Hopen Ht Hs out verdict record. subst out record verdict.
  rewrite (setGrayVersionStorage_resolved user w _ _ _ Hopen
             (getGrayVersionRule_success w (Some fetched) Ht Hs)).
  repeat split; reflexivity.
Qed.

(** X6. In test mode (the stored record has [isTest]) [getGrayVersionRule]
    resolves to the stored record as it is, without a fetch and without a
    write: the only call recorded is the read of the storage. *)
Theorem getGrayVersionRule_test_mode_offline :
  forall w : World,
    testOverride w = true ->
    let out := getGrayVersionRule w in
    resultOf out = Ret (Resolved (storage w))
    /\ worldOf out = w
    /\ traceOf out = [EvGetStorage].
Proof.
  intros w Ht out. subst out. rewrite (getGrayVersionRule_test w Ht).
  unfold testOverride in Ht. destruct (storage w) as [r|]; [|discriminate Ht].
  repeat split; reflexivity.
Qed.

Lemma wxProxy_succ (GRAY_PAGES : list string) (layers : nat) (api : RouteApi) :
  wxProxy GRAY_PAGES (S layers) api
  = routeApiProxy GRAY_PAGES (wxProxy GRAY_PAGES layers api).
Proof. destruct api; reflexivity. Qed.

Lemma isGrayVersionSync_run (w : World) :
  isGrayVersionSync w = (Ret (previousDecision w), w, [EvGetStorage]).
Proof. destruct w; reflexivity. Qed.

Section ComposedProperties.

Variable GRAY_PAGES : list string.

(** X7. Test mode is kept by every writer of the record: from a world in test
    mode, [setGrayVersionStorage], [setGrayVersionStorageSync] and
    [redirectToGrayPage] each end in a world in test mode, and
    [setGrayVersionStorage] never reaches the network. *)
Theorem test_mode_is_kept :
  forall (params : RedirectToGrayPageParams) (user : option UserInfo.t) (w : World),
    testOverride w = true ->
    testOverride (worldOf (setGrayVersionStorage user w)) = true
    /\ ~ In EvFetch (traceOf (setGrayVersionStorage user w))
    /\ testOverride (worldOf (setGrayVersionStorageSync user w)) = true
    /\ testOverride (worldOf (redirectToGrayPage GRAY_PAGES params w)) = true.
Proof.
  intros params user w Ht.
  assert (Hrec : forall b, Js.orFalse (GrayRule.isTest
                   (GrayRule.assignDecision (storedRule (storage w)) b)) = true).
  { intros b. exact Ht. }
  split; [|split; [|split]].
  - destruct (isGrayVersionOpen w) eqn:Hopen.
    + rewrite (setGrayVersionStorage_resolved user w _ _ _ Hopen
                 (getGrayVersionRule_test w Ht)).
      unfold testOverride. cbn [worldOf fst snd storage storedRule]. apply Hrec.
    + rewrite (setGrayVersionStorage_off user w Hopen). exact Ht.
  - destruct (isGrayVersionOpen w) eqn:Hopen.
    + rewrite (setGrayVersionStorage_resolved user w _ _ _ Hopen
                 (getGrayVersionRule_test w Ht)).
      cbn [traceOf snd app In]. intros [H | [H | []]]; discriminate H.
    + rewrite (setGrayVersionStorage_off user w Hopen). intros [].
  - rewrite setGrayVersionStorageSync_run.
    destruct (isGrayVersionOpen w); [|exact Ht].
    unfold testOverride, freshRecord. cbn [worldOf fst snd storage storedRule].
    apply Hrec.
  - rewrite redirectToGrayPage_run.
    destruct (negb (isGrayVersionOpen w)); [exact Ht|].
    destruct (negb (matchesPages _ (currentRoute w)));
      [|destruct (negb (Bool.eqb _ (previousDecision w)))];
      unfold testOverride, freshRecord; cbn [worldOf fst snd storage storedRule];
      apply Hrec.
Qed.

(** One layer of the interceptor over a call whose resolved, stripped path is
    [path], in a world with a current page. *)
Lemma routeApiProxy_step (wxRouteApi : RouteObject -> M unit) (object : RouteObject)
    (w : World) (source path : string) :
  Js.orFalse (notProxy object) = false ->
  Js.lastOf (pageStack w) = Some source ->
  stripCanaryPrefix (fixRelativeUrl source (url object)) = path ->
  routeApiProxy GRAY_PAGES wxRouteApi object w =
  (isGrayVersionSync ;;;
   wxRouteApi
     (withUrl object
        (if matchesPages GRAY_PAGES path && previousDecision w
         then "/" ++ withCanaryPrefix path else "/" ++ path))) w.
Proof.
  intros Hmark Hpage <-. destruct w as [open st stack query layers srv].
  cbn [pageStack] in Hpage.
  unfold routeApiProxy, previousDecision, matchesPages. rewrite Hmark.
  run_host. rewrite Hpage.
  destruct (wxRouteApi _ _) as [[r w1] t]. destruct r; reflexivity.
Qed.

Lemma wxProxy_layers (layers : nat) (api : RouteApi) (w : World) (source path : string) :
  Js.lastOf (pageStack w) = Some source ->
  stripCanaryPrefix path = path ->
  forall object : RouteObject,
    Js.orFalse (notProxy object) = false ->
    stripCanaryPrefix (fixRelativeUrl source (url object)) = path ->
    wxProxy GRAY_PAGES (S layers) api object w =
    (Ret tt, w,
     (repeat EvGetStorage (S layers) ++
      [EvRoute api
         (withUrl object
            (if matchesPages GRAY_PAGES path && previousDecision w
             then "/" ++ withCanaryPrefix path else "/" ++ path))])%list).
Proof.
  intros Hpage Hplain. induction layers as [|n IH]; intros object Hmark Hpath.
  - rewrite wxProxy_succ, (routeApiProxy_step _ _ _ _ _ Hmark Hpage Hpath).
    unfold bind. rewrite isGrayVersionSync_run. reflexivity.
  - rewrite wxProxy_succ, (routeApiProxy_step _ _ _ _ _ Hmark Hpage Hpath).
    unfold bind. rewrite isGrayVersionSync_run.
    set (gray := matchesPages GRAY_PAGES path && previousDecision w).
    rewrite IH.
    + reflexivity.
    + exact Hmark.
    + cbn [withUrl url]. destruct gray.
      * change ("/" ++ withCanaryPrefix path) with (String "/" (withCanaryPrefix path)).
        rewrite fixRelativeUrl_absolute. apply stripCanaryPrefix_prefixed.
      * change ("/" ++ path) with (String "/" path).
        rewrite fixRelativeUrl_absolute. exact Hplain.
Qed.

(** X11. Replacing [wx] more than once does not change what reaches the
    platform: through any number of layers, a call without the marker whose
    resolved path carries no second canary prefix is delegated once, with the
    url one layer would give it; each layer reads the persisted decision once. *)
Theorem wxProxy_layers_agree :
  forall (layers : nat) (api : RouteApi) (object : RouteObject) (w : World)
         (source : string),
    Js.orFalse (notProxy object) = false ->
    Js.lastOf (pageStack w) = Some source ->
    let path := stripCanaryPrefix (fixRelativeUrl source (url object)) in
    stripCanaryPrefix path = path ->
    wxProxy GRAY_PAGES (S layers) api object w =
    (Ret tt, w,
     (repeat EvGetStorage (S layers) ++
      [EvRoute api
         (withUrl object
            (if matchesPages GRAY_PAGES path && previousDecision w
             then "/" ++ withCanaryPrefix path else "/" ++ path))])%list).
Proof.
  intros layers api object w source Hmark Hpage path Hplain.
  apply (wxProxy_layers layers api w source path Hpage Hplain object Hmark eq_refl).
Qed.

(** X12. With an empty page stack a call without the marker fails in the
    outermost layer: [currentPage.route] throws, the storage is not read and
    nothing reaches the platform. (The marked call of [redirectToGrayPage] is
    not affected.) *)
Theorem wxProxy_empty_page_stack :
  forall (layers : nat) (api : RouteApi) (object : RouteObject) (w : World),
    Js.orFalse (notProxy object) = false ->
    pageStack w = [] ->
    wxProxy GRAY_PAGES (S layers) api object w = (Throw TypeError, w, []).
Proof.
  intros layers api object w Hmark Hstack.
  rewrite wxProxy_succ. destruct w as [open st stack query n srv].
  cbn [pageStack] in Hstack. subst stack.
  unfold routeApiProxy. rewrite Hmark. reflexivity.
Qed.


End ComposedProperties.

(** ** Rule evaluator: the criteria *)

(** The evaluator as one boolean expression over the defaults. *)
Lemma checkIsGrayVersionTargetUser_bool (rule : GrayRule.t) (user : option UserInfo.t) :
  let codes := Js.withDefault [] (GrayRule.areaCode rule) in
  let prefix := Js.withDefault "" (GrayRule.phonePrefix rule) in
  let whiteList := Js.withDefault [] (GrayRule.whiteList rule) in
  checkIsGrayVersionTargetUser rule user =
  Js.withDefault false (GrayRule.isOpen rule)
  && (Js.withDefault false (GrayRule.all rule)
      || match codes with c :: _ => String.eqb c "all" | [] => false end
      || Js.some (fun code => Js.startsWith (userAreaCode user) code) codes
      || ((0 <? String.length prefix)%nat && Js.startsWith (userMobilePhone user) prefix)
      || Js.includes whiteList (userMobilePhone user)).
Proof.
  unfold checkIsGrayVersionTargetUser, userAreaCode, userMobilePhone.
  destruct (Js.withDefault false (GrayRule.isOpen rule)); cbn [negb andb]; [|reflexivity].
  destruct (Js.withDefault false (GrayRule.all rule)); cbn [orb]; [reflexivity|].
  destruct (Js.withDefault [] (GrayRule.areaCode rule)) as [|c rest].
  - cbn [List.length Nat.leb andb orb Js.some existsb].
    destruct ((0 <? _)%nat && _); cbn [orb]; [reflexivity|].
    destruct (Js.includes _ _); reflexivity.
  - cbn [List.length Nat.leb andb].
    destruct (String.eqb c "all"); cbn [orb]; [reflexivity|].
    destruct (Js.some _ (c :: rest)); cbn [orb]; [reflexivity|].
    destruct ((0 <? _)%nat && _); cbn [orb]; [reflexivity|].
    destruct (Js.includes _ _); reflexivity.
Qed.

Lemma includes_In (l : list string) (x : string) :
  Js.includes l x = true <-> In x l.
Proof.
  unfold Js.includes. rewrite existsb_exists. split.
  - intros (y & Hin & Heq). apply String.eqb_eq in Heq. subst y. exact Hin.
  - intros Hin. exists x. split; [exact Hin|apply String.eqb_refl].
Qed.

Lemma length_pos_nonempty (s : string) :
  (0 <? String.length s)%nat = true <-> s <> "".
Proof.
  destruct s as [|c r]; simpl; split; intros H.
  - discriminate H.
  - contradiction H. reflexivity.
  - discriminate.
  - reflexivity.
Qed.

(** X13. The evaluator answers [true] exactly when the rule is open and at
    least one criterion holds: [all] is set; the first area code is the
    sentinel ["all"]; some listed area code is a prefix of the user's area
    code; the phone prefix is not empty and is a prefix of the user's phone;
    the user's phone is in the white list. Missing fields of the rule count as
    their defaults and missing attributes of the user as the empty string. *)
Theorem checkIsGrayVersionTargetUser_criteria :
  forall (rule : GrayRule.t) (user : option UserInfo.t),
    let codes := Js.withDefault [] (GrayRule.areaCode rule) in
    let prefix := Js.withDefault "" (GrayRule.phonePrefix rule) in
    let whiteList := Js.withDefault [] (GrayRule.whiteList rule) in
    checkIsGrayVersionTargetUser rule user = true <->
    GrayRule.isOpen rule = Some true
    /\ (GrayRule.all rule = Some true
        \/ (exists rest, codes = "all" :: rest)
        \/ (exists code, In code codes /\ Js.startsWith (userAreaCode user) code = true)
        \/ (prefix <> "" /\ Js.startsWith (userMobilePhone user) prefix = true)
        \/ In (userMobilePhone user) whiteList).
Proof.
  intros rule user codes prefix whiteList.
  rewrite checkIsGrayVersionTargetUser_bool. fold codes prefix whiteList.
  rewrite andb_true_iff, !orb_true_iff, andb_true_iff.
  unfold Js.some. rewrite existsb_exists, includes_In, length_pos_nonempty.
  assert (Hopen : Js.withDefault false (GrayRule.isOpen rule) = true
                  <-> GrayRule.isOpen rule = Some true).
  { destruct (GrayRule.isOpen rule) as [[|]|]; simpl; split; congruence. }
  assert (Hall : Js.withDefault false (GrayRule.all rule) = true
                 <-> GrayRule.all rule = Some true).
  { destruct (GrayRule.all rule) as [[|]|]; simpl; split; congruence. }
  assert (Hsent : match codes with c :: _ => String.eqb c "all" | [] => false end = true
                  <-> exists rest, codes = "all" :: rest).
  { destruct codes as [|c rest]; split.
    - discriminate.
    - intros [r H]. discriminate H.
    - intros H. apply String.eqb_eq in H. subst c. exists rest. reflexivity.
    - intros [r H]. injection H as -> _. reflexivity. }
  rewrite Hopen, Hall, Hsent. tauto.
Qed.

(** X14. Adding area codes and white-list entries at the end of the lists of
    a rule never turns a target into a non-target. *)
Theorem checkIsGrayVersionTargetUser_monotone :
  forall (rule : GrayRule.t) (codes phones : list string) (user : option UserInfo.t),
    checkIsGrayVersionTargetUser rule user = true ->
    checkIsGrayVersionTargetUser (extendRule rule codes phones) user = true.
Proof.
  intros rule codes phones user H.
  rewrite checkIsGrayVersionTargetUser_bool in *.
  cbn [extendRule GrayRule.isOpen GrayRule.areaCode GrayRule.phonePrefix
       GrayRule.whiteList GrayRule.all Js.withDefault] in *.
  set (old := Js.withDefault [] (GrayRule.areaCode rule)) in *.
  set (wl := Js.withDefault [] (GrayRule.whiteList rule)) in *.
  apply andb_true_iff in H as [Hopen Hany]. rewrite Hopen. cbn [andb].
  unfold Js.some, Js.includes in *. rewrite !existsb_app.
  rewrite !orb_true_iff in Hany. rewrite !orb_true_iff.
  destruct Hany as [[[[Hall | Hsent] | Harea] | Hphone] | Hwl].
  - auto.
  - left; left; left; right. destruct old; [discriminate Hsent|exact Hsent].
  - auto.
  - auto.
  - auto.
Qed.

(** X15. An open rule that lists the empty string as an area code targets
    every user, with or without an area code: every string starts with the
    empty string. *)
Theorem checkIsGrayVersionTargetUser_empty_area_code :
  forall (rule : GrayRule.t) (codes : list string) (user : option UserInfo.t),
    GrayRule.isOpen rule = Some true ->
    GrayRule.areaCode rule = Some codes ->
    In "" codes ->
    checkIsGrayVersionTargetUser rule user = true.
Proof.
  intros rule codes user Hopen Hcodes Hin.
  rewrite checkIsGrayVersionTargetUser_bool, Hopen, Hcodes.
  cbn [Js.withDefault andb].
  assert (Hsome : Js.some (fun code => Js.startsWith (userAreaCode user) code) codes = true).
  { unfold Js.some. apply existsb_exists. exists "". split; [exact Hin|].
    unfold Js.startsWith. apply prefix_empty. }
  rewrite Hsome, !orb_true_r. reflexivity.
Qed.

(** ** Path normaliser: laws of the resolution *)

Lemma split_app_slash (a b : string) :
  Js.split "/" (a ++ String "/" b) = (Js.split "/" a ++ Js.split "/" b)%list.
Proof.
  induction a as [|c r IH]; [reflexivity|].
  simpl. destruct (Ascii.eqb c "/").
  - rewrite IH. reflexivity.
  - rewrite IH. pose proof (split_not_nil r) as Hne.
    destruct (Js.split "/" r) as [|x xs]; [contradiction|reflexivity].
Qed.

Lemma split_noSlash (s : string) : noSlash s = true -> Js.split "/" s = [s].
Proof.
  induction s as [|c r IH]; [reflexivity|].
  simpl. intros H. apply andb_true_iff in H as [Hc Hr].
  apply negb_true_iff in Hc. rewrite Hc, (IH Hr). reflexivity.
Qed.

Lemma join_app (a b : list string) :
  a <> [] -> b <> [] ->
  Js.join "/" (a ++ b) = Js.join "/" a ++ "/" ++ Js.join "/" b.
Proof.
  intros Ha Hb. induction a as [|x a IH]; [contradiction|].
  destruct a as [|y a].
  - change (([x] ++ b)%list) with (x :: b). rewrite join_cons by exact Hb. reflexivity.
  - change (((x :: y :: a) ++ b)%list) with (x :: ((y :: a) ++ b)%list).
    rewrite join_cons by discriminate. rewrite IH by discriminate.
    rewrite (join_cons "/" x (y :: a)) by discriminate.
    rewrite !append_assoc. reflexivity.
Qed.

Lemma pop_push {A} (l : list A) (x : A) : Js.pop (Js.push l x) = l.
Proof. unfold Js.pop, Js.push. apply removelast_last. Qed.

Lemma startsWith_slash_app (x t : string) :
  x <> "" -> noSlash x = true -> Js.startsWith (x ++ t) "/" = false.
Proof.
  intros Hx Hs. rewrite startsWith_slash.
  destruct x as [|c r]; [contradiction Hx; reflexivity|].
  simpl in Hs. apply andb_true_iff in Hs as [Hc _]. apply negb_true_iff in Hc.
  simpl. destruct c as [[] [] [] [] [] [] [] []]; try reflexivity. discriminate Hc.
Qed.

(** X16. A relative target without a segment [.] or [..] resolves to the
    directory of the current page followed by the target; from a page path of
    a single segment it resolves to the target itself. *)
Theorem fixRelativeUrl_plain_target :
  forall (dir file target : string),
    noSlash file = true ->
    Js.startsWith target "/" = false ->
    forallb (fun q => negb (isDotSegment q)) (Js.split "/" target) = true ->
    fixRelativeUrl (dir ++ "/" ++ file) target = dir ++ "/" ++ target
    /\ fixRelativeUrl file target = target.
Proof.
  intros dir file target Hfile Hrel Hplain. split.
  - rewrite (fixRelativeUrl_relative _ _ Hrel).
    change (dir ++ "/" ++ file) with (dir ++ String "/" file).
    rewrite split_app_slash, (split_noSlash file Hfile).
    change (Js.split "/" dir ++ [file])%list with (Js.push (Js.split "/" dir) file).
    rewrite pop_push, fixRelativeUrl_loop_plain by exact Hplain.
    rewrite join_app by apply split_not_nil. rewrite !join_split. reflexivity.
  - rewrite (fixRelativeUrl_relative _ _ Hrel), (split_noSlash file Hfile).
    rewrite fixRelativeUrl_loop_plain by exact Hplain. apply join_split.
Qed.

Lemma split_parentSteps (k : nat) (t : string) :
  Js.split "/" (parentSteps k ++ t) = (repeat ".." k ++ Js.split "/" t)%list.
Proof.
  induction k as [|k IH]; [reflexivity|].
  change (parentSteps (S k) ++ t)
    with (String "." (String "." (String "/" (parentSteps k ++ t)))).
  cbn [Js.split Ascii.eqb Bool.eqb]. rewrite IH. reflexivity.
Qed.

Lemma length_pop {A} (l : list A) : List.length (Js.pop l) = pred (List.length l).
Proof.
  unfold Js.pop. induction l as [|x l IH]; [reflexivity|].
  destruct l as [|y l]; [reflexivity|].
  change (removelast (x :: y :: l)) with (x :: removelast (y :: l)).
  cbn [List.length] in *. rewrite IH. reflexivity.
Qed.

Lemma fixRelativeUrl_loop_underflow (k : nat) (parts stack : list string) :
  List.length stack <= k ->
  fixRelativeUrl_loop (repeat ".." k ++ parts) stack = fixRelativeUrl_loop parts [].
Proof.
  revert stack. induction k as [|k IH]; intros stack H.
  - destruct stack; [reflexivity|simpl in H; lia].
  - cbn [repeat app fixRelativeUrl_loop String.eqb Ascii.eqb Bool.eqb].
    apply IH. rewrite length_pop. lia.
Qed.

Lemma startsWith_parentSteps (k : nat) (t : string) :
  Js.startsWith t "/" = false -> Js.startsWith (parentSteps k ++ t) "/" = false.
Proof.
  intros H. destruct k as [|k]; [exact H|]. rewrite startsWith_slash. reflexivity.
Qed.

(** X17. Popping past the root is not an error and not remembered: once a
    relative target climbs at least as many levels as the current page has
    directories, the result no longer depends on the current page; it is the
    rest of the target resolved against nothing. *)
Theorem fixRelativeUrl_underflow :
  forall (base : string) (k : nat) (t : string),
    List.length (Js.pop (Js.split "/" base)) <= k ->
    Js.startsWith t "/" = false ->
    fixRelativeUrl base (parentSteps k ++ t) = fixRelativeUrl "" t.
Proof.
  intros base k t Hdepth Hrel.
  rewrite (fixRelativeUrl_relative _ _ (startsWith_parentSteps k t Hrel)).
  rewrite (fixRelativeUrl_relative _ _ Hrel).
  rewrite split_parentSteps, fixRelativeUrl_loop_underflow by exact Hdepth.
  reflexivity.
Qed.

(** X18. Two laws of the resolution, for a relative rest [t]: a leading [./]
    changes nothing, and a segment followed by [..] cancels. *)
Theorem fixRelativeUrl_dot_segments :
  forall (base x t : string),
    Js.startsWith t "/" = false ->
    fixRelativeUrl base ("./" ++ t) = fixRelativeUrl base t
    /\ (x <> "" -> noSlash x = true -> isDotSegment x = false ->
        fixRelativeUrl base (x ++ "/../" ++ t) = fixRelativeUrl base t).
Proof.
  intros base x t Hrel. split.
  - rewrite (fixRelativeUrl_relative _ _ Hrel).
    assert (H : Js.startsWith ("./" ++ t) "/" = false)
      by (rewrite startsWith_slash; reflexivity).
    rewrite (fixRelativeUrl_relative _ _ H). reflexivity.
  - intros Hx Hs Hd.
    rewrite (fixRelativeUrl_relative _ _ Hrel).
    rewrite (fixRelativeUrl_relative _ _ (startsWith_slash_app x _ Hx Hs)).
    change (x ++ "/../" ++ t) with (x ++ String "/" (parentSteps 1 ++ t)).
    rewrite split_app_slash, (split_noSlash x Hs), split_parentSteps.
    unfold isDotSegment in Hd. apply orb_false_iff in Hd as [H1 H2].
    cbn [app repeat fixRelativeUrl_loop]. rewrite H1, H2.
    cbn [String.eqb Ascii.eqb Bool.eqb]. rewrite pop_push. reflexivity.
Qed.

Lemma length_slice (n : nat) (s : string) :
  String.length (Js.slice n s) = String.length s - n.
Proof.
  revert s. induction n as [|n IH]; intros s; [simpl; lia|].
  destruct s as [|c s]; [reflexivity|]. simpl. apply IH.
Qed.

Lemma prefix_length (p u : string) :
  String.prefix p u = true -> String.length p <= String.length u.
Proof.
  revert u. induction p as [|c p IH]; intros u H; [simpl; lia|].
  destruct u as [|d u]; [discriminate H|].
  simpl in *. destruct (Ascii.ascii_dec c d); [|discriminate H].
  apply IH in H. lia.
Qed.

(** X19. The two prefix removals of the module, the one of [routeApiProxy]
    and the one of [redirectToGrayPage], give the same path exactly on the
    urls that start with the bundle root and a separator or do not start with
    the bundle root at all; on a url that starts with the root followed by
    something else, only [redirectToGrayPage] cuts. *)
Theorem prefix_removals_agree :
  forall url : string,
    removeSubpackagesRoot url = stripCanaryPrefix url
    <-> (Js.startsWith url (SUBPACKAGES_ROOT ++ "/") = true
         \/ Js.startsWith url SUBPACKAGES_ROOT = false).
Proof.
  intros u. unfold removeSubpackagesRoot, stripCanaryPrefix, Js.startsWith.
  destruct (String.prefix (SUBPACKAGES_ROOT ++ "/") u) eqn:Hsep.
  - rewrite (prefix_app_l _ _ _ Hsep). split; [auto|reflexivity].
  - destruct (String.prefix SUBPACKAGES_ROOT u) eqn:Hroot.
    + split.
      * intros H. apply (f_equal String.length) in H. rewrite length_slice in H.
        apply prefix_length in Hroot. simpl in *. lia.
      * intros [H | H]; discriminate H.
    + split; [auto|reflexivity].
Qed.

(** * Properties of the delay-loading module *)

Module DelayLoadingProperties.

Import DelayLoading.

(** Running a computation of the delay-loading module: the monad and the host
    primitives unfold. *)
Ltac run_delay :=
  cbv beta iota zeta delta
    [bind ret readCount writeCount getCurrentPages platformLoading platformRequest
     setTimeout requestCount pageStack timers layers valueOf stateOf eventsOf
     fst snd app functionIsTruthy].

(** What a call of [showLoading] or [hideLoading] does under the layers [ls]. *)
Lemma wxLoading_run (ls : list Config) (api : LoadingApi)
    (object : option LoadingObject) (s : State) :
  wxLoading ls api object s =
  match ls with
  | [] => (Returned, s, [EvLoading api object])
  | [_] =>
      match object with
      | Some o =>
          if Js.orFalse (isdelayloading o)
          then (Returned, s, [EvLoading api (Some (deleteFlag o))])
          else (NoopFunction, s, [])
      | None => (NoopFunction, s, [])
      end
  | _ :: _ :: _ => (NoopFunction, s, [])
  end.
Proof.
  destruct ls as [|c1 [|c2 rest]]; cbn [wxLoading].
  - reflexivity.
  - unfold loadingApiProxy. run_delay. destruct object as [o|]; [|reflexivity].
    destruct (Js.orFalse (isdelayloading o)); reflexivity.
  - unfold loadingApiProxy at 1. run_delay. destruct object as [o|]; [|reflexivity].
    destruct (Js.orFalse (isdelayloading o)); [|reflexivity].
    unfold loadingApiProxy. reflexivity.
Qed.

Lemma wxLoading_state (ls : list Config) (api : LoadingApi)
    (object : option LoadingObject) (s : State) :
  stateOf (wxLoading ls api object s) = s.
Proof.
  rewrite wxLoading_run. destruct ls as [|c1 [|c2 rest]]; [reflexivity| |reflexivity].
  destruct object as [o|]; [|reflexivity].
  destruct (Js.orFalse (isdelayloading o)); reflexivity.
Qed.

(** X20. Once [enableDelayLoading] has replaced [wx], a call of [showLoading]
    or [hideLoading] without the marker [isdelayloading] never reaches the
    platform and returns a function, on every page and whatever [pages] lists;
    a call with the marker reaches the platform with the marker deleted and
    its other properties kept. *)
Theorem loading_calls_need_the_marker :
  forall (cfg : Config) (s : State) (api : LoadingApi) (object : option LoadingObject),
    layers s = [cfg] ->
    let marked :=
      Js.orFalse (match object with Some o => isdelayloading o | None => None end) in
    (marked = false -> wx_loading api object s = (NoopFunction, s, []))
    /\ (forall o : LoadingObject,
          object = Some o -> marked = true ->
          wx_loading api object s
          = (Returned, s,
             [EvLoading api (Some (mkLoading (title o) None (loadingRest o)))])).
Proof.
  intros cfg s api object Hl marked. subst marked.
  unfold wx_loading. rewrite Hl, wxLoading_run. split.
  - intros H. destruct object as [o|]; [|reflexivity]. cbn in H. rewrite H. reflexivity.
  - intros o -> H. cbn in H. rewrite H. reflexivity.
Qed.

(** X21. After two or more calls of [enableDelayLoading] no call of
    [showLoading] or [hideLoading] reaches the platform, marked or not: the
    outer layer deletes the marker and the next one blocks the call. The
    indicator of the module itself is then never shown nor hidden. *)
Theorem loading_blocked_under_two_layers :
  forall (c1 c2 : Config) (rest : list Config) (s : State),
    layers s = c1 :: c2 :: rest ->
    (forall api object, wx_loading api object s = (NoopFunction, s, []))
    /\ loadingCalls (eventsOf (timerCallback s)) = []
    /\ loadingCalls (eventsOf (endReq s)) = [].
Proof.
  intros c1 c2 rest s Hl.
  assert (Hblock : forall api object s', layers s' = layers s ->
                     wx_loading api object s' = (NoopFunction, s', [])).
  { intros api object s' Hs'. unfold wx_loading. rewrite Hs', Hl, wxLoading_run.
    reflexivity. }
  split; [intros api object; apply Hblock; reflexivity|split].
  - destruct s as [c stack n ls]. unfold timerCallback. run_delay.
    destruct (negb (Z.eqb c 0)); [|reflexivity].
    rewrite Hblock by reflexivity. reflexivity.
  - destruct s as [c stack n ls]. unfold endReq. run_delay.
    destruct (Z.eqb (c - 1) 0); [|reflexivity].
    rewrite Hblock by reflexivity. reflexivity.
Qed.

Lemma checkIsMatch_run (cfg : Config) (s : State) :
  checkIsMatch cfg s =
  (match Js.lastOf (pageStack s) with
   | Some route => Js.includes (pages cfg) route
   | None => false
   end, s, []).
Proof. reflexivity. Qed.

Lemma wxRequest_unmatched (ls : list Config) (object : RequestObject) (s : State) :
  noLayerMatches ls (pageStack s) = true ->
  wxRequest ls object s = (tt, s, [EvRequest object]).
Proof.
  unfold noLayerMatches. induction ls as [|cfg rest IH]; intros H; [reflexivity|].
  cbn [wxRequest]. unfold newRequest, bind at 1. rewrite checkIsMatch_run.
  destruct (Js.lastOf (pageStack s)) as [route|].
  - cbn [forallb] in H. apply andb_true_iff in H as [Hc Hrest].
    apply negb_true_iff in Hc. rewrite Hc, (IH Hrest). reflexivity.
  - rewrite (IH eq_refl). reflexivity.
Qed.

(** X22. On a page that no layer lists, and with an empty page stack, a
    request reaches the platform as the caller gave it: the object is not
    wrapped, the count does not move and no timer is set. *)
Theorem request_untouched_off_page :
  forall (object : RequestObject) (s : State),
    noLayerMatches (layers s) (pageStack s) = true ->
    wx_request object s = (tt, s, [EvRequest object]).
Proof.
  intros object s H. unfold wx_request. apply wxRequest_unmatched, H.
Qed.
Lemma setReqDelay_run (c : Z) (stack : list string) (n : nat) (ls : list Config) :
  setReqDelay None (mkState c stack n ls)
  = (tt, mkState (c + 1) stack (S n) ls, [EvSetTimeout 500]).
Proof. reflexivity. Qed.

Lemma endReq_run (c : Z) (stack : list string) (n : nat) (ls : list Config) :
  endReq (mkState c stack n ls)
  = (tt, mkState (c - 1) stack n ls,
     if Z.eqb (c - 1) 0
     then eventsOf (wxLoading ls HideLoading (Some (mkLoading None (Some true) []))
                      (mkState (c - 1) stack n ls))
     else []).
Proof.
  unfold endReq. run_delay. destruct (Z.eqb (c - 1) 0); [|reflexivity].
  unfold wx_loading. cbn [layers].
  pose proof (wxLoading_state ls HideLoading (Some (mkLoading None (Some true) []))
                (mkState (c - 1) stack n ls)) as Hst.
  destruct (wxLoading ls HideLoading _ _) as [[r s1] t]. cbn in Hst. subst s1.
  cbn [eventsOf snd]. fold (@app Event). rewrite app_nil_r. reflexivity.
Qed.

Lemma fireTimer_run (c : Z) (stack : list string) (n : nat) (ls : list Config) :
  fireTimer (mkState c stack (S n) ls)
  = (tt, mkState c stack n ls,
     if negb (Z.eqb c 0)
     then eventsOf (wxLoading ls ShowLoading
                      (Some (mkLoading (Some "loading") (Some true) []))
                      (mkState c stack n ls))
     else []).
Proof.
  unfold fireTimer, timerCallback. run_delay. destruct (negb (Z.eqb c 0)); [|reflexivity].
  unfold wx_loading. cbn [layers].
  pose proof (wxLoading_state ls ShowLoading
                (Some (mkLoading (Some "loading") (Some true) []))
                (mkState c stack n ls)) as Hst.
  destruct (wxLoading ls ShowLoading _ _) as [[r s1] t]. cbn in Hst. subst s1.
  cbn [eventsOf snd]. fold (@app Event). rewrite app_nil_r. reflexivity.
Qed.

(** Running a callback moves the count down by the number of its counting
    closures whose url is not white-listed, and nothing else of the state. *)
Lemma runCallback_state (cb : Callback) (result : option string) (s : State) :
  stateOf (runCallback cb result s)
  = mkState (requestCount s - decrementsOf cb) (pageStack s) (timers s) (layers s).
Proof.
  revert result s. induction cb as [|name|wl u inner IH]; intros result [c stack n ls].
  - cbn. rewrite Z.sub_0_r. reflexivity.
  - cbn. rewrite Z.sub_0_r. reflexivity.
  - cbn [runCallback decrementsOf]. unfold bind.
    destruct (notInWhiteList wl u).
    + rewrite endReq_run. specialize (IH None (mkState (c - 1) stack n ls)).
      destruct (runCallback inner _ _) as [[r s1] t].
      cbn [stateOf fst snd requestCount pageStack timers layers] in *. subst s1.
      f_equal. lia.
    + specialize (IH None (mkState c stack n ls)). cbn [ret].
      destruct (runCallback inner _ _) as [[r s1] t].
      cbn [stateOf fst snd requestCount pageStack timers layers] in *. subst s1.
      reflexivity.
Qed.

(** One layer of the replaced [wx.request]. *)
Lemma newRequest_run (cfg : Config) (request : RequestObject -> M unit)
    (object : RequestObject) (s : State) :
  newRequest cfg request object s =
  if onListedPage cfg s then
    if notInWhiteList (witeListUrl cfg) (url object) then
      match request (wrapped cfg object)
              (mkState (requestCount s + 1) (pageStack s) (S (timers s)) (layers s)) with
      | (r, s1, t) => (r, s1, EvSetTimeout 500 :: t)
      end
    else request (wrapped cfg object) s
  else request object s.
Proof.
  destruct s as [c stack n ly]. unfold newRequest, onListedPage, wrapped.
  unfold bind at 1. rewrite checkIsMatch_run. cbn [pageStack requestCount timers layers].
  destruct (match Js.lastOf stack with
            | Some route => Js.includes (pages cfg) route
            | None => false
            end).
  - unfold bind at 1. destruct (notInWhiteList (witeListUrl cfg) (url object)).
    + rewrite setReqDelay_run. destruct (request _ _) as [[r s1] t]. reflexivity.
    + cbn [ret]. destruct (request _ _) as [[r s1] t]. reflexivity.
  - destruct (request _ _) as [[r s1] t]. reflexivity.
Qed.

(** A request through the layers [ls]: one object reaches the platform, with
    the url given; its [complete] takes back what the layers added to the
    count; one timer is set per unit added. *)
Lemma wxRequest_balance (ls : list Config) (object : RequestObject) (s : State) :
  exists (delivered : RequestObject) (added : nat),
    requestCalls (eventsOf (wxRequest ls object s)) = [delivered]
    /\ loadingCalls (eventsOf (wxRequest ls object s)) = []
    /\ url delivered = url object
    /\ requestRest delivered = requestRest object
    /\ decrementsOf (complete delivered)
       = (decrementsOf (complete object) + Z.of_nat added)%Z
    /\ stateOf (wxRequest ls object s)
       = mkState (requestCount s + Z.of_nat added) (pageStack s)
                 (timers s + added) (layers s).
Proof.
  revert object s. induction ls as [|cfg rest IH]; intros object s.
  - exists object, 0. destruct s as [c stack n ly]. cbn.
    rewrite !Z.add_0_r, Nat.add_0_r. repeat split; reflexivity.
  - cbn [wxRequest]. rewrite newRequest_run.
    destruct (onListedPage cfg s).
    + destruct (notInWhiteList (witeListUrl cfg) (url object)) eqn:Hwl.
      * destruct (IH (wrapped cfg object)
                     (mkState (requestCount s + 1) (pageStack s) (S (timers s)) (layers s)))
          as (delivered & added & Hreq & Hload & Hurl & Hrest & Hdec & Hst).
        destruct (wxRequest rest _ _) as [[r s1] t].
        cbn [eventsOf stateOf fst snd wrapped url requestRest complete decrementsOf
             requestCount pageStack timers layers] in *.
        rewrite Hwl in Hdec.
        exists delivered, (S added). cbn [requestCalls loadingCalls].
        repeat split; try assumption.
        -- rewrite Hdec. lia.
        -- rewrite Hst. f_equal; lia.
      * destruct (IH (wrapped cfg object) s)
          as (delivered & added & Hreq & Hload & Hurl & Hrest & Hdec & Hst).
        cbn [wrapped url requestRest complete decrementsOf] in *.
        rewrite Hwl in Hdec.
        exists delivered, added. repeat split; assumption.
    + apply IH.
Qed.

(** X24. Whatever layers are stacked and whatever page is shown, a request
    whose [complete] is the caller's own reaches the platform once, with its
    url, and the [complete] it carries takes back from [requestCount] exactly
    what the request added, in whatever later state and with whatever result
    the platform calls it: run right after the request it restores the count
    the request found. *)
Theorem request_count_round_trip :
  forall (object : RequestObject) (s : State),
    ownCallback (complete object) = true ->
    exists delivered : RequestObject,
      requestCalls (eventsOf (wx_request object s)) = [delivered]
      /\ url delivered = url object
      /\ (forall (later : State) (result : option string),
            requestCount (stateOf (runCallback (complete delivered) result later))
            = (requestCount later
               - (requestCount (stateOf (wx_request object s)) - requestCount s))%Z)
      /\ (forall result : option string,
            requestCount
              (stateOf (runCallback (complete delivered) result
                          (stateOf (wx_request object s))))
            = requestCount s).
Proof.
  intros object s Hown. unfold wx_request.
  destruct (wxRequest_balance (layers s) object s)
    as (delivered & added & Hreq & _ & Hurl & _ & Hdec & Hst).
  assert (H0 : decrementsOf (complete object) = 0%Z).
  { destruct (complete object); [reflexivity|reflexivity|discriminate Hown]. }
  exists delivered. split; [exact Hreq|split; [exact Hurl|split]].
  - intros later result. rewrite runCallback_state, Hst, Hdec, H0.
    cbn [requestCount]. lia.
  - intros result. rewrite runCallback_state, Hst, Hdec, H0. cbn [requestCount]. lia.
Qed.

Lemma bind_state {A B} (m : M A) (f : A -> M B) (s : State) :
  stateOf (bind m f s) = stateOf (f (valueOf (m s)) (stateOf (m s))).
Proof.
  unfold bind. destruct (m s) as [[a s1] t1]. cbn [valueOf stateOf fst snd].
  destruct (f a s1) as [[b s2] t2]. reflexivity.
Qed.

Lemma bind_events {A B} (m : M A) (f : A -> M B) (s : State) :
  eventsOf (bind m f s)
  = (eventsOf (m s) ++ eventsOf (f (valueOf (m s)) (stateOf (m s))))%list.
Proof.
  unfold bind. destruct (m s) as [[a s1] t1]. cbn [valueOf stateOf eventsOf fst snd].
  destruct (f a s1) as [[b s2] t2]. reflexivity.
Qed.

Lemma loadingCalls_app (a b : list Event) :
  loadingCalls (a ++ b) = (loadingCalls a ++ loadingCalls b)%list.
Proof.
  induction a as [|e a IH]; [reflexivity|].
  destruct e; cbn [app loadingCalls]; rewrite IH; reflexivity.
Qed.

(** A counted request under one layer. *)
Lemma request_counted (cfg : Config) (object : RequestObject)
    (c : Z) (stack : list string) (n : nat) :
  onListedPage cfg (mkState c stack n [cfg]) = true ->
  notInWhiteList (witeListUrl cfg) (url object) = true ->
  wx_request object (mkState c stack n [cfg])
  = (tt, mkState (c + 1) stack (S n) [cfg],
     [EvSetTimeout 500; EvRequest (wrapped cfg object)]).
Proof.
  intros Hpage Hwl. unfold wx_request. cbn [layers wxRequest].
  rewrite newRequest_run, Hpage, Hwl. reflexivity.
Qed.

Lemma ownCallback_quiet (cb : Callback) (result : option string) (s : State) :
  ownCallback cb = true ->
  loadingCalls (eventsOf (runCallback cb result s)) = []
  /\ stateOf (runCallback cb result s) = s.
Proof.
  destruct cb; [split; reflexivity|split; reflexivity|discriminate].
Qed.

(** The completion of a counted request under one layer. *)
Lemma complete_counted (cfg : Config) (object : RequestObject) (result : option string)
    (c : Z) (stack : list string) (n : nat) :
  notInWhiteList (witeListUrl cfg) (url object) = true ->
  ownCallback (complete object) = true ->
  let out := runCallback (complete (wrapped cfg object)) result
               (mkState c stack n [cfg]) in
  stateOf out = mkState (c - 1) stack n [cfg]
  /\ loadingCalls (eventsOf out)
     = if Z.eqb (c - 1) 0
       then [(HideLoading, Some (mkLoading None None []))]
       else [].
Proof.
  intros Hwl Hown out. subst out.
  cbn [wrapped complete runCallback]. rewrite Hwl.
  rewrite bind_state, bind_events, loadingCalls_app, endReq_run.
  cbn [valueOf stateOf eventsOf fst snd].
  destruct (ownCallback_quiet (complete object) None
              (mkState (c - 1) stack n [cfg]) Hown) as [Hq Hs].
  rewrite Hq, Hs, app_nil_r. split; [reflexivity|].
  destruct (Z.eqb (c - 1) 0); reflexivity.
Qed.

(** A timer running under one layer. *)
Lemma timer_under_one_layer (cfg : Config) (c : Z) (stack : list string) (n : nat) :
  fireTimer (mkState c stack (S n) [cfg])
  = (tt, mkState c stack n [cfg],
     if negb (Z.eqb c 0)
     then [EvLoading ShowLoading (Some (mkLoading (Some "loading") None []))]
     else []).
Proof. rewrite fireTimer_run. destruct (negb (Z.eqb c 0)); reflexivity. Qed.


(** X25. A counted request that completes before its timer runs never shows
    the indicator: from a count of zero, the request, its completion and then
    the timer give one call of [hideLoading] on the platform (without the
    marker) and none of [showLoading]; the count is zero again and the timer
    is spent. *)
Theorem fast_request_shows_nothing :
  forall (cfg : Config) (object : RequestObject) (result : option string) (s : State),
    layers s = [cfg] ->
    requestCount s = 0%Z ->
    onListedPage cfg s = true ->
    notInWhiteList (witeListUrl cfg) (url object) = true ->
    ownCallback (complete object) = true ->
    let run :=
      wx_request object ;;>
      runCallback (complete (wrapped cfg object)) result ;;> fireTimer in
    loadingCalls (eventsOf (run s)) = [(HideLoading, Some (mkLoading None None []))]
    /\ requestCount (stateOf (run s)) = 0%Z
    /\ timers (stateOf (run s)) = timers s.
Proof.
  intros cfg object result [c stack n ls] Hl Hc Hpage Hwl Hown run. subst run.
  cbn [layers requestCount timers] in *. subst ls c.
  destruct (complete_counted cfg object result (0 + 1) stack (S n) Hwl Hown)
    as [Hst Hev].
  rewrite !bind_state, !bind_events, !loadingCalls_app.
  rewrite (request_counted cfg object 0 stack n Hpage Hwl).
  cbn [valueOf stateOf eventsOf fst snd] in *.
  rewrite Hst, Hev, timer_under_one_layer. repeat split; reflexivity.
Qed.

(** X26. A counted request that is still pending when its timer runs shows
    the indicator, and its completion hides it: from a count of zero, the
    request, the timer and then the completion give on the platform one
    [showLoading] with the title [loading] and then one [hideLoading], both
    without the marker. *)
Theorem slow_request_shows_then_hides :
  forall (cfg : Config) (object : RequestObject) (result : option string) (s : State),
    layers s = [cfg] ->
    requestCount s = 0%Z ->
    onListedPage cfg s = true ->
    notInWhiteList (witeListUrl cfg) (url object) = true ->
    ownCallback (complete object) = true ->
    let run :=
      wx_request object ;;> fireTimer ;;>
      runCallback (complete (wrapped cfg object)) result in
    loadingCalls (eventsOf (run s))
    = [(ShowLoading, Some (mkLoading (Some "loading") None []));
       (HideLoading, Some (mkLoading None None []))]
    /\ requestCount (stateOf (run s)) = 0%Z.
Proof.
  intros cfg object result [c stack n ls] Hl Hc Hpage Hwl Hown run. subst run.
  cbn [layers requestCount timers] in *. subst ls c.
  destruct (complete_counted cfg object result (0 + 1) stack n Hwl Hown) as [Hst Hev].
  rewrite !bind_state, !bind_events, !loadingCalls_app.
  rewrite (request_counted cfg object 0 stack n Hpage Hwl).
  cbn [valueOf stateOf eventsOf fst snd] in *.
  rewrite timer_under_one_layer.
  cbn [valueOf stateOf eventsOf fst snd] in *.
  rewrite Hst, Hev. repeat split; reflexivity.
Qed.

(** X27. With two counted requests in flight the indicator is hidden once,
    by the completion that brings the count back to zero: the first
    completion calls nothing on the platform and leaves the count at one, the
    second calls [hideLoading]. *)
Theorem overlapping_requests_hide_once :
  forall (cfg : Config) (first second : RequestObject)
         (result1 result2 : option string) (s : State),
    layers s = [cfg] ->
    requestCount s = 0%Z ->
    onListedPage cfg s = true ->
    notInWhiteList (witeListUrl cfg) (url first) = true ->
    notInWhiteList (witeListUrl cfg) (url second) = true ->
    ownCallback (complete first) = true ->
    ownCallback (complete second) = true ->
    let started :=
      wx_request first ;;> wx_request second ;;>
      runCallback (complete (wrapped cfg first)) result1 in
    let finished := started ;;> runCallback (complete (wrapped cfg second)) result2 in
    loadingCalls (eventsOf (started s)) = []
    /\ requestCount (stateOf (started s)) = 1%Z
    /\ loadingCalls (eventsOf (finished s))
       = [(HideLoading, Some (mkLoading None None []))]
    /\ requestCount (stateOf (finished s)) = 0%Z.
Proof.
  intros cfg first second result1 result2 [c stack n ls] Hl Hc Hpage Hwl1 Hwl2
         Hown1 Hown2 started finished.
  cbn [layers requestCount timers] in *. subst ls c.
  assert (Hpage1 : onListedPage cfg (mkState (0 + 1) stack (S n) [cfg]) = true)
    by exact Hpage.
  destruct (complete_counted cfg first result1 (0 + 1 + 1) stack (S (S n)) Hwl1 Hown1)
    as [Hst1 Hev1].
  destruct (complete_counted cfg second result2 (0 + 1 + 1 - 1) stack (S (S n))
              Hwl2 Hown2) as [Hst2 Hev2].
  assert (Hstarted :
            stateOf (started (mkState 0 stack n [cfg]))
            = mkState (0 + 1 + 1 - 1) stack (S (S n)) [cfg]
            /\ loadingCalls (eventsOf (started (mkState 0 stack n [cfg]))) = []).
  { subst started.
    rewrite !bind_state, !bind_events, !loadingCalls_app.
    rewrite (request_counted cfg first 0 stack n Hpage Hwl1).
    cbn [valueOf stateOf eventsOf fst snd] in *.
    rewrite (request_counted cfg second (0 + 1) stack (S n) Hpage1 Hwl2).
    cbn [valueOf stateOf eventsOf fst snd] in *.
    rewrite Hst1, Hev1. split; reflexivity. }
  destruct Hstarted as [Hs He].
  split; [exact He|split; [rewrite Hs; reflexivity|]].
  subst finished. rewrite bind_state, bind_events, loadingCalls_app, Hs, He.
  cbn [valueOf stateOf eventsOf fst snd] in *.
  rewrite Hst2, Hev2. split; reflexivity.
Qed.

(** *** Concrete runs of the delay-loading module *)

Lemma loading_calls_need_the_marker_witness :
  wx_loading ShowLoading (Some (mkLoading (Some "wait") None [])) sampleState
  = (NoopFunction, sampleState, [])
  /\ wx_loading ShowLoading (Some (mkLoading (Some "wait") (Some true) [])) sampleState
     = (Returned, sampleState,
        [EvLoading ShowLoading (Some (mkLoading (Some "wait") None []))]).
Proof.
  split.
  - apply (proj1 (loading_calls_need_the_marker sampleConfig sampleState ShowLoading
                    (Some (mkLoading (Some "wait") None [])) eq_refl)).
    reflexivity.
  - apply (proj2 (loading_calls_need_the_marker sampleConfig sampleState ShowLoading
                    (Some (mkLoading (Some "wait") (Some true) [])) eq_refl)
             (mkLoading (Some "wait") (Some true) [])); reflexivity.
Defined.

Lemma loading_blocked_under_two_layers_witness :
  let s := mkState 1 ["pages/index/index"] 1 [sampleConfig; sampleConfig] in
  wx_loading HideLoading (Some (mkLoading None (Some true) [])) s = (NoopFunction, s, [])
  /\ loadingCalls (eventsOf (timerCallback s)) = [].
Proof.
  intros s.
  destruct (loading_blocked_under_two_layers sampleConfig sampleConfig [] s eq_refl)
    as (Hall & Htimer & _).
  split; [apply Hall|exact Htimer].
Defined.

Lemma request_untouched_off_page_witness :
  let s := mkState 0 ["pages/detail/detail"] 0 [sampleConfig] in
  wx_request sampleRequest s = (tt, s, [EvRequest sampleRequest]).
Proof.
  exact (request_untouched_off_page sampleRequest
           (mkState 0 ["pages/detail/detail"] 0 [sampleConfig]) eq_refl).
Defined.


Lemma request_count_round_trip_witness :
  exists delivered : RequestObject,
    requestCalls (eventsOf (wx_request sampleRequest sampleState)) = [delivered]
    /\ url delivered = "https://api.example.com/list"
    /\ requestCount
         (stateOf (runCallback (complete delivered) (Some "request:ok")
                     (stateOf (wx_request sampleRequest sampleState))))
       = 0%Z.
Proof.
  destruct (request_count_round_trip sampleRequest sampleState eq_refl)
    as (delivered & Hreq & Hurl & _ & Hback).
  exists delivered. split; [exact Hreq|split; [exact Hurl|apply Hback]].
Defined.

Lemma fast_request_shows_nothing_witness :
  let run :=
    wx_request sampleRequest ;;>
    runCallback (complete (wrapped sampleConfig sampleRequest)) (Some "request:ok") ;;>
    fireTimer in
  loadingCalls (eventsOf (run sampleState)) = [(HideLoading, Some (mkLoading None None []))]
  /\ requestCount (stateOf (run sampleState)) = 0%Z
  /\ timers (stateOf (run sampleState)) = 0.
Proof.
  exact (fast_request_shows_nothing sampleConfig sampleRequest (Some "request:ok")
           sampleState eq_refl eq_refl eq_refl eq_refl eq_refl).
Defined.

Lemma slow_request_shows_then_hides_witness :
  let run :=
    wx_request sampleRequest ;;> fireTimer ;;>
    runCallback (complete (wrapped sampleConfig sampleRequest)) (Some "request:ok") in
  loadingCalls (eventsOf (run sampleState))
  = [(ShowLoading, Some (mkLoading (Some "loading") None []));
     (HideLoading, Some (mkLoading None None []))]
  /\ requestCount (stateOf (run sampleState)) = 0%Z.
Proof.
  exact (slow_request_shows_then_hides sampleConfig sampleRequest (Some "request:ok")
           sampleState eq_refl eq_refl eq_refl eq_refl eq_refl).
Defined.

Lemma overlapping_requests_hide_once_witness :
  let second := mkRequest "https://api.example.com/detail" NoCallback [] in
  let started :=
    wx_request sampleRequest ;;> wx_request second ;;>
    runCallback (complete (wrapped sampleConfig sampleRequest)) (Some "request:ok") in
  let finished :=
    started ;;>
    runCallback (complete (wrapped sampleConfig second)) (Some "request:fail") in
  loadingCalls (eventsOf (started sampleState)) = []
  /\ requestCount (stateOf (started sampleState)) = 1%Z
  /\ loadingCalls (eventsOf (finished sampleState))
     = [(HideLoading, Some (mkLoading None None []))]
  /\ requestCount (stateOf (finished sampleState)) = 0%Z.
Proof.
  exact (overlapping_requests_hide_once sampleConfig sampleRequest
           (mkRequest "https://api.example.com/detail" NoCallback [])
           (Some "request:ok") (Some "request:fail") sampleState
           eq_refl eq_refl eq_refl eq_refl eq_refl eq_refl eq_refl).
Defined.

End DelayLoadingProperties.

(** * Concrete runs of the further properties *)

Lemma entry_points_inert_when_off_witness :
  let w := mkWorld false
             (Some (GrayRule.mk (Some true) None None None (Some true) None (Some false)))
             ["pages/a/index"] [] 0 FetchFails in
  redirectToGrayPage ["pages/a"] (mkParams (Some ["pages/a"]) None) w = (Ret false, w, [])
  /\ setGrayVersionStorageSync None w = (Ret tt, w, [])
  /\ setGrayVersionStorage None w = (Ret (Resolved tt), w, []).
Proof.
  exact (entry_points_inert_when_off ["pages/a"] (mkParams (Some ["pages/a"]) None) None
           (mkWorld false
              (Some (GrayRule.mk (Some true) None None None (Some true) None (Some false)))
              ["pages/a/index"] [] 0 FetchFails)
           eq_refl).
Defined.

Lemma setGrayVersionStorageSync_persists_witness :
  let w1 := worldOf (setGrayVersionStorageSync None (sampleWorld FetchFails)) in
  storage w1
  = Some (GrayRule.mk (Some true) None None None (Some true) None (Some true))
  /\ resultOf (isGrayVersionSync w1) = Ret true
  /\ worldOf (setGrayVersionStorageSync None w1) = w1.
Proof.
  exact (setGrayVersionStorageSync_persists None (sampleWorld FetchFails) eq_refl).
Defined.

Lemma setGrayVersionStorage_failure_closes_witness :
  let out := setGrayVersionStorage None (sampleWorld FetchFails) in
  resultOf out = Ret (Resolved tt)
  /\ storage (worldOf out)
     = Some (GrayRule.mk (Some false) None None None None None (Some false))
  /\ resultOf (isGrayVersionSync (worldOf out)) = Ret false
  /\ forall other : option UserInfo.t, freshVerdict (worldOf out) other = false.
Proof.
  apply (setGrayVersionStorage_failure_closes None (sampleWorld FetchFails)).
  - reflexivity.
  - reflexivity.
  - right. left. reflexivity.
Defined.

Lemma setGrayVersionStorage_success_persists_witness :
  let fetched := GrayRule.mk (Some true) (Some ["11"]) None None None None None in
  let user := Some (UserInfo.mk (Some "110105") None) in
  let out := setGrayVersionStorage user
               (sampleWorld (FetchReplies (Some (JObject (Some 200%Z) (Some fetched))))) in
  let record := GrayRule.mk (Some true) (Some ["11"]) None None None None (Some true) in
  resultOf out = Ret (Resolved tt)
  /\ storage (worldOf out) = Some record
  /\ traceOf out
     = [EvGetStorage; EvFetch; EvSetStorage (Some fetched); EvSetStorage (Some record)]
  /\ resultOf (isGrayVersionSync (worldOf out)) = Ret true.
Proof.
  intros fetched user out record.
  apply (setGrayVersionStorage_success_persists user
           (sampleWorld (FetchReplies (Some (JObject (Some 200%Z) (Some fetched)))))
           fetched).
  - reflexivity.
  - reflexivity.
  - exists (Some 200%Z). split; reflexivity.
Defined.

Lemma getGrayVersionRule_test_mode_offline_witness :
  resultOf (getGrayVersionRule sampleTestWorld) = Ret (Resolved (storage sampleTestWorld))
  /\ worldOf (getGrayVersionRule sampleTestWorld) = sampleTestWorld
  /\ traceOf (getGrayVersionRule sampleTestWorld) = [EvGetStorage].
Proof.
  exact (getGrayVersionRule_test_mode_offline sampleTestWorld eq_refl).
Defined.

Lemma test_mode_is_kept_witness :
  let params := mkParams (Some ["pages/a"]) None in
  testOverride (worldOf (setGrayVersionStorage None sampleTestWorld)) = true
  /\ ~ In EvFetch (traceOf (setGrayVersionStorage None sampleTestWorld))
  /\ testOverride (worldOf (setGrayVersionStorageSync None sampleTestWorld)) = true
  /\ testOverride (worldOf (redirectToGrayPage ["pages/a"] params sampleTestWorld)) = true.
Proof.
  exact (test_mode_is_kept ["pages/a"] (mkParams (Some ["pages/a"]) None) None
           sampleTestWorld eq_refl).
Defined.

Lemma redirectToGrayPage_second_run_witness :
  let params := mkParams (Some ["pages/a"; "grayVersion/pages/a"]) None in
  let w2 := mkWorld true
              (Some (GrayRule.mk (Some true) None None None (Some true) None (Some true)))
              ["grayVersion/pages/a/index"] [("id", "1")] 1 FetchFails in
  resultOf (redirectToGrayPage ["pages/a"] params w2) = Ret false
  /\ navigations (traceOf (redirectToGrayPage ["pages/a"] params w2)) = [].
Proof.
  exact (redirectToGrayPage_second_run ["pages/a"]
           (mkParams (Some ["pages/a"; "grayVersion/pages/a"]) None)
           (sampleWorld FetchFails)
           (mkWorld true
              (Some (GrayRule.mk (Some true) None None None (Some true) None (Some true)))
              ["grayVersion/pages/a/index"] [("id", "1")] 1 FetchFails)
           eq_refl eq_refl).
Defined.

Lemma redirectToGrayPage_always_persists_witness :
  let params := mkParams (Some ["pages/other"]) None in
  let out := redirectToGrayPage ["pages/a"] params (sampleWorld FetchFails) in
  resultOf out = Ret false
  /\ storage (worldOf out)
     = Some (GrayRule.mk (Some true) None None None (Some true) None (Some true))
  /\ resultOf (isGrayVersionSync (worldOf out)) = Ret true.
Proof.
  intros params out.
  destruct (redirectToGrayPage_always_persists ["pages/a"] params (sampleWorld FetchFails)
              eq_refl) as (Hst & _ & Hread & _).
  split; [reflexivity|split; [exact Hst|exact Hread]].
Defined.


Lemma wxProxy_layers_agree_witness :
  let w := mkWorld true
             (Some (GrayRule.mk (Some true) None None None (Some true) None (Some true)))
             ["pages/a/index"] [] 3 FetchFails in
  wxProxy ["pages/b"] 3 ReLaunch (mkRouteObject "../b/index?id=1" None []) w
  = (Ret tt, w,
     [EvGetStorage; EvGetStorage; EvGetStorage;
      EvRoute ReLaunch (mkRouteObject "/grayVersion/pages/b/index?id=1" None [])]).
Proof.
  exact (wxProxy_layers_agree ["pages/b"] 2 ReLaunch
           (mkRouteObject "../b/index?id=1" None [])
           (mkWorld true
              (Some (GrayRule.mk (Some true) None None None (Some true) None (Some true)))
              ["pages/a/index"] [] 3 FetchFails)
           "pages/a/index" eq_refl eq_refl eq_refl).
Defined.

Lemma wxProxy_empty_page_stack_witness :
  let w := mkWorld true None [] [] 1 FetchFails in
  wxProxy ["pages/b"] 1 ReLaunch (mkRouteObject "/pages/b/index" None []) w
  = (Throw TypeError, w, []).
Proof.
  exact (wxProxy_empty_page_stack ["pages/b"] 0 ReLaunch
           (mkRouteObject "/pages/b/index" None [])
           (mkWorld true None [] [] 1 FetchFails) eq_refl eq_refl).
Defined.

Lemma checkIsGrayVersionTargetUser_monotone_witness :
  let rule := GrayRule.mk (Some true) (Some ["11"]) None (Some ["13800138000"]) None
                None None in
  let user := Some (UserInfo.mk (Some "220000") (Some "13800138000")) in
  checkIsGrayVersionTargetUser rule user = true
  /\ checkIsGrayVersionTargetUser (extendRule rule ["31"] ["13900139000"]) user = true.
Proof.
  intros rule user. split; [reflexivity|].
  apply (checkIsGrayVersionTargetUser_monotone rule ["31"] ["13900139000"] user).
  reflexivity.
Defined.

Lemma checkIsGrayVersionTargetUser_empty_area_code_witness :
  let rule := GrayRule.mk (Some true) (Some ["11"; ""]) None None None None None in
  checkIsGrayVersionTargetUser rule None = true
  /\ checkIsGrayVersionTargetUser rule (Some (UserInfo.mk (Some "220000") None)) = true.
Proof.
  intros rule. split.
  - apply (checkIsGrayVersionTargetUser_empty_area_code rule ["11"; ""] None).
    + reflexivity.
    + reflexivity.
    + right. left. reflexivity.
  - apply (checkIsGrayVersionTargetUser_empty_area_code rule ["11"; ""]
             (Some (UserInfo.mk (Some "220000") None))).
    + reflexivity.
    + reflexivity.
    + right. left. reflexivity.
Defined.

Lemma fixRelativeUrl_plain_target_witness :
  fixRelativeUrl "pages/a/index" "detail?id=1" = "pages/a/detail?id=1"
  /\ fixRelativeUrl "index" "detail?id=1" = "detail?id=1".
Proof.
  exact (fixRelativeUrl_plain_target "pages/a" "index" "detail?id=1"
           eq_refl eq_refl eq_refl).
Defined.

Lemma fixRelativeUrl_underflow_witness :
  fixRelativeUrl "pages/a/index" "../../../b/index" = fixRelativeUrl "" "b/index".
Proof.
  apply (fixRelativeUrl_underflow "pages/a/index" 3 "b/index").
  - simpl. lia.
  - reflexivity.
Defined.

Lemma fixRelativeUrl_dot_segments_witness :
  fixRelativeUrl "pages/a/index" "./b/index" = fixRelativeUrl "pages/a/index" "b/index"
  /\ fixRelativeUrl "pages/a/index" "c/../b/index"
     = fixRelativeUrl "pages/a/index" "b/index".
Proof.
  destruct (fixRelativeUrl_dot_segments "pages/a/index" "c" "b/index" eq_refl)
    as [Hdot Hup].
  split; [exact Hdot|].
  apply Hup; [discriminate|reflexivity|reflexivity].
Defined.
